(** * Progress tracker: the survey controller of [app.py]

    A shallow embedding of the Flask application's session logic
    ([get_user_progress], [index], [survey]) together with the proofs of the
    behavioural contract of the progress controller.

    Modelling conventions
    - Python [dict]s are stdpp finite maps ([gmap]); dicts with a fixed set of
      keys ([{"level": .., "responses": .., "badges": ..}]) are records.
    - Python [int]s are [Z]; the one floating-point expression of the program
      (the percentage of [index]) is evaluated in IEEE 754 binary64 with the
      software floats of [SpecFloat].
    - The Flask session is the slot that holds the ["progress"] key: [None]
      when the key is absent.  The handlers mutate the dict they obtained
      from the session and store it back, which is written here as explicit
      state passing.
    - Python exceptions are the [Raise] results of an error monad.
    - Strings are byte strings, the UTF-8 encoding of the Python text;
      [Str.lower] and [Str.capitalize] act on the ASCII letters, which is
      what [str.lower] and [str.capitalize] do on ASCII text.  [str.lower]
      on arbitrary text is [Unicode.lower], over code points; the handler's
      table lookup is the same under both ([survey_case_insensitive]). *)

From Stdlib Require Import ZArith List Ascii String Lia Bool.
From Stdlib Require Import SpecFloat DecimalString.
From Stdlib Require DecimalNat DecimalFacts.
From Stdlib Require Import NArith Zify.
From stdpp Require Import gmap strings list fin_maps.

Local Open Scope string_scope.
Local Open Scope Z_scope.

(** ** Strings *)

Module Str.

Definition lower_char (a : ascii) : ascii :=
  let n := nat_of_ascii a in
  if ((65 <=? n)%nat && (n <=? 90)%nat)%bool then ascii_of_nat (n + 32) else a.

Definition upper_char (a : ascii) : ascii :=
  let n := nat_of_ascii a in
  if ((97 <=? n)%nat && (n <=? 122)%nat)%bool then ascii_of_nat (n - 32) else a.

(** [str.lower()] as the handler needs it, on the bytes of a text: the
    ASCII capitals become small letters and every other byte is kept.  On
    ASCII text this is [str.lower]; on text with other code points
    [str.lower] is [Unicode.lower] below, and the two agree on which
    category, if any, the text names. *)
Fixpoint lower (s : string) : string :=
  match s with
  | EmptyString => EmptyString
  | String a r => String (lower_char a) (lower r)
  end.

(** [str.capitalize()]: first character upper-cased, the rest lower-cased. *)
Definition capitalize (s : string) : string :=
  match s with
  | EmptyString => EmptyString
  | String a r => String (upper_char a) (lower r)
  end.

(** [str(n)] for a non-negative index, as used by [f"q{idx}"]. *)
Definition of_nat (n : nat) : string := NilZero.string_of_uint (Nat.to_uint n).

End Str.

(** ** Floating point: [int / int], [float * int] and [int(float)] *)

Module Float.

Definition prec : Z := 53.
Definition emax : Z := 1024.

(** Conversion of an integer to the nearest binary64 value (exact below
    [2^53]). *)
Definition of_int (n : Z) : spec_float := binary_normalize prec emax n 0 false.

Definition mul (x y : spec_float) : spec_float := SFmul prec emax x y.
Definition div (x y : spec_float) : spec_float := SFdiv prec emax x y.

(** Truncation toward zero of a finite value [(-1)^s * m * 2^e]. *)
Definition trunc (s : bool) (m : positive) (e : Z) : Z :=
  let a := if 0 <=? e then Z.shiftl (Zpos m) e else Z.shiftr (Zpos m) (- e) in
  if s then - a else a.

End Float.


(** ** Exceptions *)

Inductive exn :=
| KeyError (key : string)
| ZeroDivisionError
| OverflowError
| ValueError.

Inductive result (A : Type) : Type :=
| Ok (a : A)
| Raise (e : exn).
Arguments Ok {A} a.
Arguments Raise {A} e.

#[global] Instance result_ret : MRet result := fun _ a => Ok a.
#[global] Instance result_bind : MBind result := fun _ _ k r =>
  match r with
  | Ok a => k a
  | Raise e => Raise e
  end.

#[global] Instance result_fmap : FMap result := fun _ _ f r =>
  match r with
  | Ok a => Ok (f a)
  | Raise e => Raise e
  end.

(** [d[k]]: subscription of a dict, [KeyError] when the key is absent. *)
Definition getitem {V : Type} (d : gmap string V) (k : string) : result V :=
  match d !! k with
  | Some v => Ok v
  | None => Raise (KeyError k)
  end.

(** [a / b] on integers: true division.  Python rounds the exact quotient;
    for operands below [2^53] in absolute value, which convert exactly, that
    is the binary64 division of the converted operands. *)
Definition truediv (a b : Z) : result spec_float :=
  if b =? 0 then Raise ZeroDivisionError
  else Ok (Float.div (Float.of_int a) (Float.of_int b)).

(** [int(x)] on a float: truncation toward zero. *)
Definition int (x : spec_float) : result Z :=
  match x with
  | S754_zero _ => Ok 0
  | S754_finite s m e => Ok (Float.trunc s m e)
  | S754_infinity _ => Raise OverflowError
  | S754_nan => Raise ValueError
  end.

(** [len(l)] *)
Definition len {A : Type} (l : list A) : Z := Z.of_nat (length l).

(** ** Data model *)

(** An entry of a category of [SURVEY_QUESTIONS]:
    [{"level": n, "questions": [...]}]. *)
Record Level := {
  lvl_level : Z;
  lvl_questions : list string
}.

(** [{"question": q, "answer": answer}] *)
Record Answer := {
  question : string;
  answer : string
}.

(** [{"level": current_level, "answers": answers}] *)
Record Response := {
  resp_level : Z;
  resp_answers : list Answer
}.

(** [{"level": 0, "responses": [], "badges": []}] *)
Record CategoryProgress := {
  level : Z;
  responses : list Response;
  badges : list string
}.

(** The dict stored under [session["progress"]]. *)
Abbreviation Progress := (gmap string CategoryProgress).

(** The session, reduced to its ["progress"] key. *)
Abbreviation Session := (option (gmap string CategoryProgress)).

(** [request.form], each field name with the value [form.get] returns. *)
Abbreviation Form := (gmap string string).

(** [request.method]; the handler only asks whether it is ["POST"]. *)
Inductive method := GET | POST.

(** An entry of [categories_info] in [index]. *)
Record CategoryInfo := {
  name : string;
  key : string;
  percent_complete : Z;
  info_badges : list string;
  next_level : option Z
}.

Inductive response :=
| Redirect (endpoint : string)
| RenderIndex (categories_info : list CategoryInfo)
| RenderSurvey (category : string) (current_level : Z) (questions : list string).

(** ** The configuration table *)

Definition SURVEY_QUESTIONS : gmap string (list Level) :=
  list_to_map [
    ("spiritual",
     [
      {| lvl_level := 1;
         lvl_questions :=
          ["Did you set aside time for prayer or meditation today?";
           "Did you read a passage from a religious or philosophical text?"] |};
      {| lvl_level := 2;
         lvl_questions :=
          ["Have you engaged in a community service or outreach activity this week?";
           "Have you participated in a group worship, study or reflection session recently?"] |};
      {| lvl_level := 3;
         lvl_questions :=
          ["Do you feel your spiritual practice is deepening over time?";
           "Are you mentoring or supporting others in their spiritual journey?"] |}
     ]);
    ("physical",
     [
      {| lvl_level := 1;
         lvl_questions :=
          ["Did you complete at least 30 minutes of physical activity today?";
           "Did you drink at least 8 cups of water today?"] |};
      {| lvl_level := 2;
         lvl_questions :=
          ["Did you eat a balanced meal with fruits and vegetables today?";
           "Have you consistently slept 7–8 hours per night this week?"] |};
      {| lvl_level := 3;
         lvl_questions :=
          ["Are you following a regular exercise routine that challenges you?";
           "Have you reached or maintained a healthy weight range?"] |}
     ]);
    ("mental",
     [
      {| lvl_level := 1;
         lvl_questions :=
          ["Did you practice a stress‑relief technique like mindfulness or deep breathing today?";
           "Did you take a break from screens and social media for at least 30 minutes?"] |};
      {| lvl_level := 2;
         lvl_questions :=
          ["Have you connected with a friend, family member or counselor to talk about how you're feeling?";
           "Did you spend time on a hobby or creative activity that you enjoy?"] |};
      {| lvl_level := 3;
         lvl_questions :=
          ["Are you regularly journaling or reflecting on your emotions?";
           "Do you feel you can manage stress and challenges in a healthy way?"] |}
     ])
  ].

(** ** The controller *)

Definition new_category_progress : CategoryProgress :=
  {| level := 0; responses := []; badges := [] |}.

(** [get_user_progress()]: the progress dict of the session, created on first
    access; returns the dict and the session after the call. *)
Definition get_user_progress (session : Session) : Progress * Session :=
  match session with
  | None =>
      let progress := gset_to_gmap new_category_progress (dom SURVEY_QUESTIONS) in
      (progress, Some progress)
  | Some progress => (progress, session)
  end.

(** The body of the loop of [index] for one item of [progress.items()]. *)
Definition category_info (category : string) (data : CategoryProgress)
  : result CategoryInfo :=
  levels ← getitem SURVEY_QUESTIONS category;
  let total_levels := len levels in
  let completed_levels := level data in
  ratio ← truediv completed_levels total_levels;
  percent ← int (Float.mul ratio (Float.of_int 100));
  mret {| name := Str.capitalize category;
          key := category;
          percent_complete := percent;
          info_badges := badges data;
          next_level := if completed_levels <? total_levels
                        then Some (completed_levels + 1) else None |}.

Fixpoint index_loop (items : list (string * CategoryProgress))
    (categories_info : list CategoryInfo) : result (list CategoryInfo) :=
  match items with
  | [] => Ok categories_info
  | (category, data) :: items' =>
      info ← category_info category data;
      index_loop items' (categories_info ++ [info])
  end.

(** [index()], the handler of [GET /].  The items are visited in the
    enumeration order of the map. *)
Definition index (session : Session) : result (response * Session) :=
  let '(progress, session) := get_user_progress session in
  categories_info ← index_loop (map_to_list progress) [];
  mret (RenderIndex categories_info, session).

(** The answer-collecting loop of [survey]:
    [for idx, q in enumerate(level_data["questions"])]. *)
Fixpoint collect_answers (form : Form) (idx : nat) (questions : list string)
    (answers : list Answer) : list Answer :=
  match questions with
  | [] => answers
  | q :: questions' =>
      let answer := default EmptyString (form !! ("q" +:+ Str.of_nat idx)) in
      collect_answers form (S idx) questions'
        (answers ++ [{| question := q; answer := answer |}])
  end.

(** [survey(category)], the handler of [GET] and [POST /survey/<category>].
    [level_data] is a level dict or [None]; a level dict is never empty, so
    [not level_data] holds exactly for [None].  [user_cat_data] is the very
    dict held by [progress] under [category]: the appends and the assignment
    of the [POST] branch update it in place, which is the insertion of the
    updated record into [progress] below. *)
Definition survey (m : method) (form : Form) (category : string)
    (session : Session) : result (response * Session) :=
  let category := Str.lower category in
  match SURVEY_QUESTIONS !! category with
  | None => Ok (Redirect "index", session)
  | Some levels =>
      let '(progress, session) := get_user_progress session in
      user_cat_data ← getitem progress category;
      let current_level := level user_cat_data + 1 in
      let total_levels := len levels in
      if total_levels <? current_level then Ok (Redirect "index", session)
      else
        match List.find (fun lvl => lvl_level lvl =? current_level) levels with
        | None => Ok (Redirect "index", session)
        | Some level_data =>
            match m with
            | POST =>
                let answers :=
                  collect_answers form 0 (lvl_questions level_data) [] in
                let user_cat_data :=
                  {| level := current_level;
                     responses := responses user_cat_data ++
                       [{| resp_level := current_level;
                           resp_answers := answers |}];
                     badges :=
                       if current_level =? total_levels
                       then badges user_cat_data ++
                              [Str.capitalize category +:+ " Champion"]
                       else badges user_cat_data |} in
                let progress := <[category := user_cat_data]> progress in
                Ok (Redirect "index", Some progress)
            | GET =>
                Ok (RenderSurvey category current_level
                      (lvl_questions level_data), session)
            end
        end
  end.

(** ** Requests and reachable sessions *)

Inductive request :=
| GetOrInitProgress
| GetIndex
| GetSurveyPage (category : string)
| SubmitSurvey (category : string) (form : Form).

(** The session after a request; the response is dropped. *)
Definition exec (r : request) (session : Session) : result Session :=
  match r with
  | GetOrInitProgress => Ok (snd (get_user_progress session))
  | GetIndex => snd <$> index session
  | GetSurveyPage category => snd <$> survey GET ∅ category session
  | SubmitSurvey category form => snd <$> survey POST form category session
  end.

Fixpoint run (rs : list request) (session : Session) : result Session :=
  match rs with
  | [] => Ok session
  | r :: rs' => session' ← exec r session; run rs' session'
  end.

(** The sessions a client can hold: a fresh one, and those the handlers
    produced from it. *)
Inductive reachable : Session -> Prop :=
| reachable_fresh : reachable None
| reachable_step r session session' :
    reachable session -> exec r session = Ok session' -> reachable session'.

(** The level recorded for a category; a fresh session stands for level 0. *)
Definition level_of (session : Session) (category : string) : Z :=
  match session with
  | None => 0
  | Some progress => default 0 (level <$> progress !! category)
  end.

(** ** Predicates used in the statements *)

(** The levels of a category carry the ordinals [o], [o+1], ... in order. *)
Definition contiguous_from (o : Z) (levels : list Level) : Prop :=
  forall (i : nat) lvl, levels !! i = Some lvl -> lvl_level lvl = o + Z.of_nat i.

(** The record written by a submission that completes level [level d + 1]. *)
Definition advanced (category : string) (total_levels : Z) (answers : list Answer)
    (d : CategoryProgress) : CategoryProgress :=
  {| level := level d + 1;
     responses := responses d ++
       [{| resp_level := level d + 1; resp_answers := answers |}];
     badges := if level d + 1 =? total_levels
               then badges d ++ [Str.capitalize category +:+ " Champion"]
               else badges d |}.

Definition category_ok (total_levels : Z) (d : CategoryProgress) : Prop :=
  0 <= level d <= total_levels /\
  len (responses d) = level d /\
  length (badges d) = if level d =? total_levels then 1%nat else 0%nat.

(** The record has exactly the configured categories, each within bounds. *)
Definition progress_ok (p : Progress) : Prop :=
  forall c,
    match SURVEY_QUESTIONS !! c, p !! c with
    | Some levels, Some d => category_ok (len levels) d
    | None, None => True
    | _, _ => False
    end.

Definition session_ok (s : Session) : Prop :=
  match s with
  | None => True
  | Some p => progress_ok p
  end.

(** ** Sample inputs *)

Definition physical_levels : list Level :=
  default [] (SURVEY_QUESTIONS !! "physical").

(** A form with one answer, one answer missing and a stray [level] field. *)
Definition sample_form : Form :=
  <["q0" := "yes"]> (<["level" := "3"]> ∅).

(** The session of a client that completed the three physical levels. *)
Definition physical_done : Session :=
  match run [SubmitSurvey "physical" sample_form;
             SubmitSurvey "Physical" ∅;
             SubmitSurvey "PHYSICAL" sample_form] None with
  | Ok s => s
  | Raise _ => None
  end.

(** The session of a client that completed two physical levels, and the
    record it holds for that category. *)
Definition physical_two : Session :=
  match run [SubmitSurvey "physical" sample_form;
             SubmitSurvey "Physical" ∅] None with
  | Ok s => s
  | Raise _ => None
  end.

Definition physical_two_record : CategoryProgress :=
  default new_category_progress ((get_user_progress physical_two).1 !! "physical").

(** ** Request kinds and the full shape of a record *)

(** The requests that submit a survey of [category]. *)
Definition submits_to (category : string) (r : request) : bool :=
  match r with
  | SubmitSurvey c _ => bool_decide (Str.lower c = category)
  | _ => false
  end.

Definition is_submission (r : request) : bool :=
  match r with
  | SubmitSurvey _ _ => true
  | _ => false
  end.

(** The number of submissions to [category] among the requests. *)
Definition submissions_to (category : string) (rs : list request) : Z :=
  len (List.filter (submits_to category) rs).

(** The stored history of a category: the response at index [i] is the one
    of level [i + 1] and carries the questions of that level of the table;
    the badges are the single champion badge at the last level and none
    before. *)
Definition record_exact (category : string) (levels : list Level)
    (d : CategoryProgress) : Prop :=
  (forall (i : nat) r,
     responses d !! i = Some r ->
     resp_level r = Z.of_nat i + 1 /\
     exists lvl,
       levels !! i = Some lvl /\
       question <$> resp_answers r = lvl_questions lvl) /\
  badges d = if level d =? len levels
             then [Str.capitalize category +:+ " Champion"] else [].

Definition progress_exact (p : Progress) : Prop :=
  forall c levels d,
    SURVEY_QUESTIONS !! c = Some levels -> p !! c = Some d ->
    record_exact c levels d.

Definition session_exact (s : Session) : Prop :=
  match s with
  | None => True
  | Some p => progress_exact p
  end.

(** The field name of the answer to the question at index [idx]:
    [f"q{idx}"]. *)
Definition field_name (idx : nat) : string := "q" +:+ Str.of_nat idx.

(** The form of a client that answers the questions in order: the field
    [q<i>] holds the answer at index [i]. *)
Definition form_of_answers (answers : list string) : Form :=
  list_to_map (imap (fun i a => (field_name i, a)) answers).

(** A progress record written before the category ["mental"] was configured,
    and one that holds a category the table does not have. *)
Definition progress_without_mental : Progress :=
  <["physical" := new_category_progress]>
    (<["spiritual" := new_category_progress]> ∅).

Definition progress_with_social : Progress :=
  <["social" := new_category_progress]> (get_user_progress None).1.

(** The sample form without its stray field. *)
Definition answers_only_form : Form := <["q0" := "yes"]> ∅.

(** ** Unicode text and [str.lower] *)

(** A Python [str] is a sequence of code points and the byte strings of this
    file are their UTF-8 encodings.  [str.lower] maps the ASCII capitals to
    the small letters and leaves the other ASCII code points; what a
    non-ASCII code point becomes is given by the Unicode character database
    of the interpreter, which is no part of the repository and is taken as
    the parameter [unicode_lower]: the code points that replace [x] when it
    stands between the code points [before] and [after] (the context decides
    the form of the capital sigma). *)
Module Unicode.

(** The UTF-8 bytes of one code point. *)
Definition encode_char (x : N) : list ascii :=
  (if x <? 128 then [ascii_of_N x]
   else if x <? 2048 then
     [ascii_of_N (192 + x / 64); ascii_of_N (128 + x mod 64)]
   else if x <? 65536 then
     [ascii_of_N (224 + x / 4096); ascii_of_N (128 + (x / 64) mod 64);
      ascii_of_N (128 + x mod 64)]
   else
     [ascii_of_N (240 + (x / 262144) mod 8);
      ascii_of_N (128 + (x / 4096) mod 64);
      ascii_of_N (128 + (x / 64) mod 64);
      ascii_of_N (128 + x mod 64)])%N.

Fixpoint utf8 (cps : list N) : string :=
  match cps with
  | [] => EmptyString
  | x :: cps' => string_of_list_ascii (encode_char x) +:+ utf8 cps'
  end.

Definition lower_ascii (x : N) : N :=
  (if (65 <=? x) && (x <=? 90) then x + 32 else x)%N.

Fixpoint lower_from (unicode_lower : list N -> N -> list N -> list N)
    (before cps : list N) : list N :=
  match cps with
  | [] => []
  | x :: after =>
      (if (x <? 128)%N then [lower_ascii x] else unicode_lower before x after)
        ++ lower_from unicode_lower (before ++ [x]) after
  end.

(** [str.lower()] *)
Definition lower (unicode_lower : list N -> N -> list N -> list N)
    (cps : list N) : list N :=
  lower_from unicode_lower [] cps.

(** What the proofs use of the character database: a non-ASCII code point
    lower-cases to a sequence that holds a non-ASCII code point, or holds
    the letter [k] (U+212A KELVIN SIGN lower-cases to [k]; no other
    non-ASCII code point lower-cases to ASCII letters alone). *)
Definition lower_table_ok
    (unicode_lower : list N -> N -> list N -> list N) : Prop :=
  forall before x after,
    (128 <= x)%N ->
    exists y, In y (unicode_lower before x after) /\ (128 <= y \/ y = 107)%N.

(** A fragment of the database: KELVIN SIGN, LATIN CAPITAL LETTER I WITH DOT
    ABOVE, LATIN CAPITAL LETTER E WITH ACUTE; other code points are left. *)
Definition sample_lower (before : list N) (x : N) (after : list N) : list N :=
  (if x =? 8490 then [107]
   else if x =? 304 then [105; 775]
   else if x =? 201 then [233]
   else [x])%N.

End Unicode.

(** A byte that occurs in no category name: a byte of a non-ASCII code
    point, or the letter [k]. *)
Definition foreign (a : ascii) : bool :=
  let n := N_of_ascii a in ((128 <=? n) || (n =? 107))%N.

Fixpoint has_foreign (s : string) : bool :=
  match s with
  | EmptyString => false
  | String a r => foreign a || has_foreign r
  end.

(** * Properties *)

(** ** Strings *)

Lemma lower_char_idemp a : Str.lower_char (Str.lower_char a) = Str.lower_char a.
Proof. destruct a as [[] [] [] [] [] [] [] []]; reflexivity. Qed.

Lemma lower_idemp s : Str.lower (Str.lower s) = Str.lower s.
Proof.
  induction s as [|a r IH]; simpl; [reflexivity|].
  now rewrite lower_char_idemp, IH.
Qed.

(** ** The configuration table *)

Lemma contiguous_from_tail o lvl levels :
  contiguous_from o (lvl :: levels) -> contiguous_from (o + 1) levels.
Proof.
  intros H i l Hi. specialize (H (S i) l Hi). lia.
Qed.

Lemma find_level_in_range levels : forall o k,
  contiguous_from o levels ->
  o <= k < o + len levels ->
  List.find (fun lvl => lvl_level lvl =? k) levels = levels !! Z.to_nat (k - o).
Proof.
  unfold len.
  induction levels as [|lvl levels IH]; intros o k Hc Hk; simpl in *; [lia|].
  pose proof (Hc 0%nat lvl eq_refl) as H0. simpl in H0.
  destruct (Z.eqb_spec (lvl_level lvl) k) as [E|E].
  - replace (k - o) with 0 by lia. reflexivity.
  - rewrite (IH (o + 1) k (contiguous_from_tail _ _ _ Hc)) by lia.
    replace (Z.to_nat (k - o)) with (S (Z.to_nat (k - (o + 1)))) by lia.
    reflexivity.
Qed.

Lemma find_level_out_of_range levels : forall o k,
  contiguous_from o levels ->
  k < o \/ o + len levels <= k ->
  List.find (fun lvl => lvl_level lvl =? k) levels = None.
Proof.
  unfold len.
  induction levels as [|lvl levels IH]; intros o k Hc Hk; simpl in *; [reflexivity|].
  pose proof (Hc 0%nat lvl eq_refl) as H0. simpl in H0.
  destruct (Z.eqb_spec (lvl_level lvl) k) as [E|E]; [lia|].
  apply (IH (o + 1) k (contiguous_from_tail _ _ _ Hc)). lia.
Qed.

Lemma table_cases c levels :
  SURVEY_QUESTIONS !! c = Some levels ->
  c = "spiritual" \/ c = "physical" \/ c = "mental".
Proof.
  intros H. apply elem_of_list_to_map_2 in H.
  repeat (apply elem_of_cons in H as [H|H]; [injection H as Hc _; tauto|]).
  now apply elem_of_nil in H.
Qed.

Lemma table_shape c levels :
  SURVEY_QUESTIONS !! c = Some levels ->
  contiguous_from 1 levels /\ len levels = 3.
Proof.
  intros H. apply elem_of_list_to_map_2 in H.
  repeat (apply elem_of_cons in H as [H|H];
    [injection H as _ Hl; subst levels; split; [|reflexivity];
     intros [|[|[|i]]] lvl Hi; simpl in Hi; try discriminate;
     injection Hi as <-; reflexivity|]).
  now apply elem_of_nil in H.
Qed.

(** ** The answer loop *)

Lemma collect_answers_spec form questions : forall idx answers,
  collect_answers form idx questions answers =
  (answers ++ imap (fun i q =>
    {| question := q;
       answer := default EmptyString (form !! ("q" +:+ Str.of_nat (idx + i))) |}) questions)%list.
Proof.
  induction questions as [|q questions IH]; intros idx answers; simpl.
  - now rewrite app_nil_r.
  - rewrite IH, <- app_assoc. simpl. rewrite Nat.add_0_r.
    do 2 f_equal. apply imap_ext. intros i x _. simpl.
    now rewrite Nat.add_succ_r.
Qed.

(** ** One request to [/survey/<category>] *)

Lemma survey_unknown m form c s :
  SURVEY_QUESTIONS !! Str.lower c = None ->
  survey m form c s = Ok (Redirect "index", s).
Proof. intros H. unfold survey. now rewrite H. Qed.

Lemma survey_missing_entry m form c s levels :
  SURVEY_QUESTIONS !! Str.lower c = Some levels ->
  (get_user_progress s).1 !! Str.lower c = None ->
  survey m form c s = Raise (KeyError (Str.lower c)).
Proof.
  intros H Hp. unfold survey. rewrite H.
  destruct (get_user_progress s) as [p s1]. simpl in Hp.
  unfold getitem. now rewrite Hp.
Qed.

Lemma survey_blocked m form c s levels d :
  SURVEY_QUESTIONS !! Str.lower c = Some levels ->
  (get_user_progress s).1 !! Str.lower c = Some d ->
  level d < 0 \/ len levels <= level d ->
  survey m form c s = Ok (Redirect "index", (get_user_progress s).2).
Proof.
  intros H Hp Hl. unfold survey. rewrite H.
  destruct (get_user_progress s) as [p s1]. simpl in *.
  unfold getitem. rewrite Hp. simpl.
  destruct (Z.ltb_spec (len levels) (level d + 1)) as [Hlt|Hge]; [reflexivity|].
  destruct (table_shape _ _ H) as [Hc _].
  rewrite (find_level_out_of_range levels 1 (level d + 1) Hc); [reflexivity|lia].
Qed.

Lemma survey_open c s levels d :
  SURVEY_QUESTIONS !! Str.lower c = Some levels ->
  (get_user_progress s).1 !! Str.lower c = Some d ->
  0 <= level d < len levels ->
  exists lvl,
    levels !! Z.to_nat (level d) = Some lvl /\
    lvl_level lvl = level d + 1 /\
    (forall form, survey GET form c s =
       Ok (RenderSurvey (Str.lower c) (level d + 1) (lvl_questions lvl),
           (get_user_progress s).2)) /\
    (forall form, survey POST form c s =
       Ok (Redirect "index",
           Some (<[Str.lower c :=
                    advanced (Str.lower c) (len levels)
                      (collect_answers form 0 (lvl_questions lvl) []) d]>
                   (get_user_progress s).1))).
Proof.
  intros H Hp Hl.
  destruct (table_shape _ _ H) as [Hc _].
  destruct (lookup_lt_is_Some_2 levels (Z.to_nat (level d))) as [lvl Hlvl].
  { unfold len in Hl. lia. }
  exists lvl. split; [exact Hlvl|]. split.
  { rewrite (Hc _ _ Hlvl). lia. }
  assert (Hfind : List.find (fun l => lvl_level l =? level d + 1) levels = Some lvl).
  { rewrite (find_level_in_range levels 1 (level d + 1) Hc) by lia.
    now replace (level d + 1 - 1) with (level d) by lia. }
  split; intros form; unfold survey; rewrite H;
    destruct (get_user_progress s) as [p s1]; simpl in *;
    unfold getitem; rewrite Hp; simpl;
    (destruct (Z.ltb_spec (len levels) (level d + 1)) as [Hlt|Hge]; [lia|]);
    rewrite Hfind; reflexivity.
Qed.

(** ** The progress record of a fresh session *)

Lemma new_progress_lookup c :
  gset_to_gmap new_category_progress (dom SURVEY_QUESTIONS) !! c =
  match SURVEY_QUESTIONS !! c with
  | Some _ => Some new_category_progress
  | None => None
  end.
Proof.
  destruct (SURVEY_QUESTIONS !! c) as [levels|] eqn:H.
  - apply lookup_gset_to_gmap_Some. split; [|reflexivity].
    apply elem_of_dom. eauto.
  - apply lookup_gset_to_gmap_None. now apply not_elem_of_dom.
Qed.

Lemma get_user_progress_session s :
  (get_user_progress s).2 = Some (get_user_progress s).1.
Proof. destruct s; reflexivity. Qed.

Lemma get_user_progress_again s :
  get_user_progress (get_user_progress s).2 = get_user_progress s.
Proof. destruct s; reflexivity. Qed.

(** ** The invariant of the progress record *)

Lemma new_progress_ok :
  progress_ok (gset_to_gmap new_category_progress (dom SURVEY_QUESTIONS)).
Proof.
  intros c. rewrite new_progress_lookup.
  destruct (SURVEY_QUESTIONS !! c) as [levels|] eqn:H; [|exact I].
  destruct (table_shape _ _ H) as [_ Hn]. rewrite Hn.
  repeat split; simpl; lia.
Qed.

Lemma get_user_progress_ok s :
  session_ok s -> progress_ok (get_user_progress s).1.
Proof. destruct s as [p|]; simpl; [tauto|]. intros _. apply new_progress_ok. Qed.

Lemma progress_ok_entry p c levels :
  progress_ok p -> SURVEY_QUESTIONS !! c = Some levels ->
  exists d, p !! c = Some d /\ category_ok (len levels) d.
Proof.
  intros Hp H. specialize (Hp c). rewrite H in Hp.
  destruct (p !! c) as [d|]; [eauto|contradiction].
Qed.

Lemma advanced_ok c total answers d :
  category_ok total d -> level d < total ->
  category_ok total (advanced c total answers d).
Proof.
  intros (Hl & Hr & Hb) Hlt. unfold category_ok, advanced, len in *. simpl.
  destruct (Z.eqb_spec (level d) total) as [E|_]; [lia|].
  rewrite length_app. simpl.
  destruct (Z.eqb_spec (level d + 1) total) as [E|E].
  - rewrite length_app, Hb. simpl. repeat split; lia.
  - repeat split; lia.
Qed.

Lemma progress_ok_insert p c levels d :
  progress_ok p -> SURVEY_QUESTIONS !! c = Some levels ->
  category_ok (len levels) d ->
  progress_ok (<[c := d]> p).
Proof.
  intros Hp H Hd c'. destruct (decide (c = c')) as [<-|Hne].
  - now rewrite H, lookup_insert_eq.
  - rewrite lookup_insert_ne by exact Hne. apply Hp.
Qed.

(** A request to [/survey/<category>] on a well-formed session returns and
    leaves a well-formed session. *)
Lemma survey_ok m form c s :
  session_ok s ->
  exists resp s', survey m form c s = Ok (resp, s') /\ session_ok s'.
Proof.
  intros Hs.
  destruct (SURVEY_QUESTIONS !! Str.lower c) as [levels|] eqn:H.
  2:{ rewrite (survey_unknown _ _ _ _ H). eauto. }
  pose proof (get_user_progress_ok s Hs) as Hp.
  destruct (progress_ok_entry _ _ _ Hp H) as (d & Hd & Hok).
  assert (Hs1 : session_ok (get_user_progress s).2).
  { rewrite get_user_progress_session. exact Hp. }
  destruct (Z.ltb_spec (level d) (len levels)) as [Hlt|Hge].
  - destruct (survey_open c s levels d H Hd) as (lvl & _ & _ & Hget & Hpost).
    { destruct Hok as (? & _). lia. }
    destruct m.
    + rewrite Hget. eauto.
    + rewrite Hpost. do 2 eexists. split; [reflexivity|]. simpl.
      apply (progress_ok_insert _ _ levels); auto using advanced_ok.
  - rewrite (survey_blocked m form c s levels d H Hd) by lia. eauto.
Qed.

(** ** The summary page *)

(** The percentage of [index] for the level counts that occur in the table:
    the binary64 computation agrees with the integer quotient. *)
Lemma category_info_ok c levels d :
  SURVEY_QUESTIONS !! c = Some levels ->
  0 <= level d <= len levels ->
  category_info c d =
  Ok {| name := Str.capitalize c;
        key := c;
        percent_complete := 100 * level d / len levels;
        info_badges := badges d;
        next_level := if level d <? len levels
                      then Some (level d + 1) else None |}.
Proof.
  intros H Hl.
  destruct (table_shape _ _ H) as [_ Hn].
  unfold category_info, getitem. rewrite H. simpl. rewrite Hn in *.
  destruct d as [l r b]. simpl in *.
  assert (l = 0 \/ l = 1 \/ l = 2 \/ l = 3) as [-> | [-> | [-> | ->]]] by lia;
    reflexivity.
Qed.

Lemma index_loop_ok items : forall acc,
  (forall c d, (c, d) ∈ items ->
     exists levels, SURVEY_QUESTIONS !! c = Some levels /\
                    category_ok (len levels) d) ->
  exists infos,
    index_loop items acc = Ok (acc ++ infos)%list /\
    Forall2 (fun item info => category_info item.1 item.2 = Ok info) items infos.
Proof.
  induction items as [|[c d] items IH]; intros acc Hitems; simpl.
  - exists []. rewrite app_nil_r. split; [reflexivity|constructor].
  - destruct (Hitems c d) as (levels & H & Hok); [left|].
    pose proof (category_info_ok c levels d H (proj1 Hok)) as Hinfo.
    destruct (category_info c d) as [info|e] eqn:Hci; [|discriminate]. simpl.
    destruct (IH (acc ++ [info])%list) as (infos & Hloop & Hall).
    { intros c' d' Hin. apply Hitems. now right. }
    exists (info :: infos). split.
    + rewrite Hloop, <- app_assoc. reflexivity.
    + constructor; [exact Hci|exact Hall].
Qed.

Lemma index_ok s :
  session_ok s ->
  exists infos,
    index s = Ok (RenderIndex infos, (get_user_progress s).2) /\
    Forall2 (fun item info => category_info item.1 item.2 = Ok info)
      (map_to_list (get_user_progress s).1) infos.
Proof.
  intros Hs. pose proof (get_user_progress_ok s Hs) as Hp.
  unfold index. destruct (get_user_progress s) as [p s1]. simpl in *.
  destruct (index_loop_ok (map_to_list p) []) as (infos & Hloop & Hall).
  { intros c d Hin. apply elem_of_map_to_list in Hin.
    specialize (Hp c). rewrite Hin in Hp.
    destruct (SURVEY_QUESTIONS !! c) as [levels|]; [eauto|contradiction]. }
  exists infos. rewrite Hloop. simpl. split; [reflexivity|exact Hall].
Qed.

(** ** Sequences of requests *)

Lemma exec_ok r s :
  session_ok s -> exists s', exec r s = Ok s' /\ session_ok s'.
Proof.
  intros Hs. pose proof (get_user_progress_ok s Hs) as Hp.
  assert (Hs1 : session_ok (get_user_progress s).2).
  { rewrite get_user_progress_session. exact Hp. }
  destruct r as [| |c|c form]; simpl.
  - eauto.
  - destruct (index_ok s Hs) as (infos & -> & _). simpl. eauto.
  - destruct (survey_ok GET ∅ c s Hs) as (resp & s' & -> & Hs'). simpl. eauto.
  - destruct (survey_ok POST form c s Hs) as (resp & s' & -> & Hs'). simpl. eauto.
Qed.

Lemma run_ok rs : forall s,
  session_ok s -> exists s', run rs s = Ok s' /\ session_ok s'.
Proof.
  induction rs as [|r rs IH]; intros s Hs; simpl; [eauto|].
  destruct (exec_ok r s Hs) as (s1 & -> & Hs1). simpl. now apply IH.
Qed.

Lemma reachable_ok s : reachable s -> session_ok s.
Proof.
  induction 1 as [|r s s' _ IH Hexec]; [exact I|].
  destruct (exec_ok r s IH) as (s1 & Hs1 & Hok). congruence.
Qed.

Lemma reachable_run rs : forall s s',
  reachable s -> run rs s = Ok s' -> reachable s'.
Proof.
  induction rs as [|r rs IH]; intros s s' Hs Hrun; simpl in Hrun.
  - congruence.
  - destruct (exec r s) as [s1|e] eqn:Hexec; simpl in Hrun; [|discriminate].
    eapply IH; [|exact Hrun]. eapply reachable_step; eauto.
Qed.

(** ** How a request changes the session *)

Lemma survey_session m form c s resp s' :
  survey m form c s = Ok (resp, s') ->
  s' = s \/ s' = (get_user_progress s).2 \/
  exists levels d answers,
    m = POST /\
    SURVEY_QUESTIONS !! Str.lower c = Some levels /\
    (get_user_progress s).1 !! Str.lower c = Some d /\
    0 <= level d < len levels /\
    s' = Some (<[Str.lower c := advanced (Str.lower c) (len levels) answers d]>
                 (get_user_progress s).1).
Proof.
  intros Hrun.
  destruct (SURVEY_QUESTIONS !! Str.lower c) as [levels|] eqn:H.
  2:{ rewrite (survey_unknown _ _ _ _ H) in Hrun. left. congruence. }
  destruct ((get_user_progress s).1 !! Str.lower c) as [d|] eqn:Hd.
  2:{ rewrite (survey_missing_entry _ _ _ _ _ H Hd) in Hrun. discriminate. }
  destruct (Z_lt_le_dec (level d) 0) as [Hneg|Hpos].
  { rewrite (survey_blocked m form c s levels d H Hd) in Hrun by lia.
    right; left. congruence. }
  destruct (Z_lt_le_dec (level d) (len levels)) as [Hlt|Hge].
  - destruct (survey_open c s levels d H Hd) as (lvl & _ & _ & Hget & Hpost);
      [lia|].
    destruct m.
    + rewrite Hget in Hrun. right; left. congruence.
    + rewrite Hpost in Hrun. right; right.
      exists levels, d, (collect_answers form 0 (lvl_questions lvl) []).
      split; [reflexivity|]. split; [reflexivity|]. split; [reflexivity|].
      split; [lia|]. now injection Hrun as _ <-.
  - rewrite (survey_blocked m form c s levels d H Hd) in Hrun by lia.
    right; left. congruence.
Qed.

Lemma index_session s resp s' :
  index s = Ok (resp, s') -> s' = (get_user_progress s).2.
Proof.
  unfold index. destruct (get_user_progress s) as [p s1]. simpl.
  destruct (index_loop (map_to_list p) []); cbn; intros E;
    [now injection E as _ <- | discriminate].
Qed.

Lemma level_of_get_user_progress s c :
  level_of (get_user_progress s).2 c = level_of s c.
Proof.
  destruct s as [p|]; simpl; [reflexivity|].
  rewrite new_progress_lookup. now destruct (SURVEY_QUESTIONS !! c).
Qed.

Lemma level_of_entry s c d :
  (get_user_progress s).1 !! c = Some d -> level_of s c = level d.
Proof.
  intros Hd. rewrite <- level_of_get_user_progress, get_user_progress_session.
  simpl. now rewrite Hd.
Qed.

Lemma exec_level_mono r s s' c :
  exec r s = Ok s' -> level_of s c <= level_of s' c.
Proof.
  intros Hexec.
  assert (Hsame : s' = s \/ s' = (get_user_progress s).2 ->
                  level_of s c <= level_of s' c).
  { intros [-> | ->]; [|rewrite level_of_get_user_progress]; lia. }
  assert (Hsurvey : forall m form c0 resp,
             survey m form c0 s = Ok (resp, s') -> level_of s c <= level_of s' c).
  { intros m form c0 resp Hrun.
    destruct (survey_session _ _ _ _ _ _ Hrun)
      as [E | [E | (levels & d & answers & _ & _ & Hd & _ & ->)]]; auto.
    simpl. destruct (decide (Str.lower c0 = c)) as [<-|Hne].
    - rewrite lookup_insert_eq, (level_of_entry s _ d Hd). simpl. lia.
    - rewrite lookup_insert_ne by exact Hne.
      rewrite <- (level_of_get_user_progress s c), get_user_progress_session.
      simpl. lia. }
  destruct r as [| |c0|c0 form]; simpl in Hexec.
  - apply Hsame. right. congruence.
  - destruct (index s) as [[resp s1]|e] eqn:Hi; simpl in Hexec; [|discriminate].
    apply Hsame. right. apply index_session in Hi. congruence.
  - destruct (survey GET ∅ c0 s) as [[resp s1]|e] eqn:Hrun; simpl in Hexec;
      [|discriminate].
    apply (Hsurvey GET ∅ c0 resp). congruence.
  - destruct (survey POST form c0 s) as [[resp s1]|e] eqn:Hrun; simpl in Hexec;
      [|discriminate].
    apply (Hsurvey POST form c0 resp). congruence.
Qed.

Lemma run_level_mono rs : forall s s' c,
  run rs s = Ok s' -> level_of s c <= level_of s' c.
Proof.
  induction rs as [|r rs IH]; intros s s' c Hrun; simpl in Hrun.
  - injection Hrun as ->. lia.
  - destruct (exec r s) as [s1|e] eqn:Hexec; simpl in Hrun; [|discriminate].
    pose proof (exec_level_mono r s s1 c Hexec).
    pose proof (IH s1 s' c Hrun). lia.
Qed.

Lemma session_ok_level_bound s c levels :
  session_ok s -> SURVEY_QUESTIONS !! c = Some levels ->
  0 <= level_of s c <= len levels.
Proof.
  intros Hs H.
  destruct (progress_ok_entry _ _ _ (get_user_progress_ok s Hs) H)
    as (d & Hd & Hl & _).
  now rewrite (level_of_entry s c d Hd).
Qed.

(** ** A run through one category *)

Example scenario_physical :
  level_of physical_two "physical" = 2 /\
  badges <$> (get_user_progress physical_two).1 !! "physical" = Some [] /\
  level_of physical_done "physical" = 3 /\
  badges <$> (get_user_progress physical_done).1 !! "physical" =
    Some ["Physical Champion"] /\
  level_of physical_done "mental" = 0 /\
  survey GET ∅ "physical" physical_done = Ok (Redirect "index", physical_done).
Proof. vm_compute. repeat split; reflexivity. Qed.

(** * The claims *)

(** C1. For a configured category whose record holds level [n] with
    [0 <= n < total_levels], a [POST /survey/<category>] returns the redirect
    to the summary and stores, for that category only, a record whose level
    is [n + 1] and whose responses are the former ones followed by exactly
    one record of level [n + 1].  The form is arbitrary: no field of it
    enters the recorded level. *)
Theorem submit_advances_one_level c form s levels d :
  SURVEY_QUESTIONS !! Str.lower c = Some levels ->
  (get_user_progress s).1 !! Str.lower c = Some d ->
  0 <= level d < len levels ->
  exists answers d',
    survey POST form c s =
      Ok (Redirect "index",
          Some (<[Str.lower c := d']> (get_user_progress s).1)) /\
    level d' = level d + 1 /\
    responses d' =
      (responses d ++
         [{| resp_level := level d + 1; resp_answers := answers |}])%list.
Proof.
  intros H Hd Hl.
  destruct (survey_open c s levels d H Hd Hl) as (lvl & _ & _ & _ & Hpost).
  eexists _, _. split; [apply Hpost|]. split; reflexivity.
Qed.

Lemma submit_advances_one_level_witness :
  exists answers d',
    survey POST sample_form "Physical" None =
      Ok (Redirect "index",
          Some (<["physical" := d']> (get_user_progress None).1)) /\
    level d' = 1 /\
    responses d' = [{| resp_level := 1; resp_answers := answers |}].
Proof.
  apply (submit_advances_one_level "Physical" sample_form None
           physical_levels new_category_progress).
  - vm_compute. reflexivity.
  - vm_compute. reflexivity.
  - vm_compute. split; congruence.
Defined.

(** C2. A submission that completes the last level of a category appends
    exactly one badge, the capitalized category name followed by
    [" Champion"]; a submission that completes an earlier level leaves the
    badges as they were. *)
Theorem submit_awards_badge_on_final_level c form s levels d :
  SURVEY_QUESTIONS !! Str.lower c = Some levels ->
  (get_user_progress s).1 !! Str.lower c = Some d ->
  0 <= level d < len levels ->
  exists d',
    survey POST form c s =
      Ok (Redirect "index",
          Some (<[Str.lower c := d']> (get_user_progress s).1)) /\
    badges d' =
      (badges d ++
         if level d + 1 =? len levels
         then [Str.capitalize (Str.lower c) +:+ " Champion"]
         else [])%list /\
    (Str.capitalize (Str.lower c) = "Spiritual" \/
     Str.capitalize (Str.lower c) = "Physical" \/
     Str.capitalize (Str.lower c) = "Mental").
Proof.
  intros H Hd Hl.
  destruct (survey_open c s levels d H Hd Hl) as (lvl & _ & _ & _ & Hpost).
  eexists. split; [apply Hpost|]. split.
  - simpl. destruct (level d + 1 =? len levels); [reflexivity|].
    now rewrite app_nil_r.
  - destruct (table_cases _ _ H) as [-> | [-> | ->]]; auto.
Qed.

Lemma submit_awards_badge_on_final_level_witness :
  exists d',
    survey POST sample_form "Physical" physical_two =
      Ok (Redirect "index",
          Some (<["physical" := d']> (get_user_progress physical_two).1)) /\
    badges d' = ["Physical Champion"] /\
    (Str.capitalize "physical" = "Spiritual" \/
     Str.capitalize "physical" = "Physical" \/
     Str.capitalize "physical" = "Mental").
Proof.
  apply (submit_awards_badge_on_final_level "Physical" sample_form physical_two
           physical_levels physical_two_record).
  - vm_compute. reflexivity.
  - vm_compute. reflexivity.
  - vm_compute. split; congruence.
Defined.

(** C8. The response record appended by a submission holds one
    (question, answer) pair per question of the resolved level, in the order
    of the questions; the answer at index [i] is the value of the form field
    [q<i>] when the form has it and the empty string otherwise.  The
    submission returns for every form. *)
Theorem submit_records_answers c form s levels d :
  SURVEY_QUESTIONS !! Str.lower c = Some levels ->
  (get_user_progress s).1 !! Str.lower c = Some d ->
  0 <= level d < len levels ->
  exists lvl answers d',
    levels !! Z.to_nat (level d) = Some lvl /\
    lvl_level lvl = level d + 1 /\
    survey POST form c s =
      Ok (Redirect "index",
          Some (<[Str.lower c := d']> (get_user_progress s).1)) /\
    responses d' =
      (responses d ++
         [{| resp_level := level d + 1; resp_answers := answers |}])%list /\
    length answers = length (lvl_questions lvl) /\
    forall (i : nat) q,
      lvl_questions lvl !! i = Some q ->
      answers !! i =
        Some {| question := q;
                answer := match form !! ("q" +:+ Str.of_nat i) with
                          | Some v => v
                          | None => EmptyString
                          end |}.
Proof.
  intros H Hd Hl.
  destruct (survey_open c s levels d H Hd Hl) as (lvl & Hlvl & Hord & _ & Hpost).
  eexists lvl, _, _. split; [exact Hlvl|]. split; [exact Hord|].
  split; [apply Hpost|]. split; [reflexivity|].
  rewrite collect_answers_spec. simpl. split.
  - apply length_imap.
  - intros i q Hq. rewrite list_lookup_imap, Hq. reflexivity.
Qed.

Lemma submit_records_answers_witness :
  exists lvl answers d',
    physical_levels !! 0%nat = Some lvl /\
    lvl_level lvl = 1 /\
    survey POST sample_form "Physical" None =
      Ok (Redirect "index",
          Some (<["physical" := d']> (get_user_progress None).1)) /\
    responses d' = [{| resp_level := 1; resp_answers := answers |}] /\
    length answers = length (lvl_questions lvl) /\
    forall (i : nat) q,
      lvl_questions lvl !! i = Some q ->
      answers !! i =
        Some {| question := q;
                answer := match sample_form !! ("q" +:+ Str.of_nat i) with
                          | Some v => v
                          | None => EmptyString
                          end |}.
Proof.
  apply (submit_records_answers "Physical" sample_form None
           physical_levels new_category_progress).
  - vm_compute. reflexivity.
  - vm_compute. reflexivity.
  - vm_compute. split; congruence.
Defined.

(** C3. In every session reachable from a fresh one by requests of any kind,
    the record of each configured category has a level between 0 and the
    number of levels of the category, as many responses as its level, and
    no badge or one badge. *)
Theorem reachable_progress_invariant s p c levels :
  reachable s ->
  s = Some p ->
  SURVEY_QUESTIONS !! c = Some levels ->
  exists d,
    p !! c = Some d /\
    0 <= level d <= len levels /\
    len (responses d) = level d /\
    (length (badges d) = 0%nat \/ length (badges d) = 1%nat).
Proof.
  intros Hr -> H. apply reachable_ok in Hr. simpl in Hr.
  destruct (progress_ok_entry _ _ _ Hr H) as (d & Hd & Hl & Hresp & Hb).
  exists d. repeat (split; [assumption|]).
  destruct (level d =? len levels); auto.
Qed.

Lemma reachable_progress_invariant_witness :
  exists d,
    (get_user_progress physical_two).1 !! "physical" = Some d /\
    0 <= level d <= len physical_levels /\
    len (responses d) = level d /\
    (length (badges d) = 0%nat \/ length (badges d) = 1%nat).
Proof.
  apply (reachable_progress_invariant physical_two).
  - apply (reachable_run
             [SubmitSurvey "physical" sample_form; SubmitSurvey "Physical" ∅]
             None); [apply reachable_fresh|].
    vm_compute. reflexivity.
  - vm_compute. reflexivity.
  - vm_compute. reflexivity.
Defined.

(** C4. From a reachable session every sequence of requests runs to the end;
    over it the level of a configured category does not decrease and stays
    at most the number of levels; and when the level already equals that
    number it stays there, and every later [GET] or [POST] to
    [/survey/<category>] is answered by the redirect to the summary with the
    session unchanged. *)
Theorem level_monotone_bounded_terminal rs s c levels :
  reachable s ->
  SURVEY_QUESTIONS !! c = Some levels ->
  exists s',
    run rs s = Ok s' /\
    level_of s c <= level_of s' c <= len levels /\
    (level_of s c = len levels ->
     level_of s' c = len levels /\
     forall m form c',
       Str.lower c' = c -> survey m form c' s' = Ok (Redirect "index", s')).
Proof.
  intros Hr H. apply reachable_ok in Hr.
  destruct (run_ok rs s Hr) as (s' & Hrun & Hs').
  exists s'. split; [exact Hrun|].
  pose proof (run_level_mono rs s s' c Hrun) as Hmono.
  pose proof (session_ok_level_bound s' c levels Hs' H) as Hbound.
  split; [lia|]. intros Htop. split; [lia|].
  intros m form c' <-.
  destruct (progress_ok_entry _ _ _ (get_user_progress_ok s' Hs') H)
    as (d & Hd & _).
  pose proof (level_of_entry s' _ d Hd) as Hlv.
  assert (Hfull : len levels <= level d) by lia.
  rewrite (survey_blocked m form c' s' levels d H Hd) by (right; exact Hfull).
  destruct s' as [p'|]; [reflexivity|].
  destruct (table_shape _ _ H) as [_ Hn]. simpl in Hlv. lia.
Qed.

Lemma level_monotone_bounded_terminal_witness :
  exists s',
    run [GetSurveyPage "physical"; SubmitSurvey "Physical" sample_form; GetIndex]
      physical_done = Ok s' /\
    level_of physical_done "physical" <= level_of s' "physical"
      <= len physical_levels /\
    (level_of physical_done "physical" = len physical_levels ->
     level_of s' "physical" = len physical_levels /\
     forall m form c',
       Str.lower c' = "physical" ->
       survey m form c' s' = Ok (Redirect "index", s')).
Proof.
  apply (level_monotone_bounded_terminal _ physical_done "physical").
  - apply (reachable_run
             [SubmitSurvey "physical" sample_form; SubmitSurvey "Physical" ∅;
              SubmitSurvey "PHYSICAL" sample_form]
             None); [apply reachable_fresh|].
    vm_compute. reflexivity.
  - vm_compute. reflexivity.
Defined.

(** C5. On a session without a progress record, [get_user_progress] creates
    and stores a record that maps each configured category, and nothing
    else, to level 0 with no responses and no badges; calling it again on
    any session it left returns the same record and leaves the same
    session. *)
Theorem get_user_progress_init_idempotent :
  (exists p,
     get_user_progress None = (p, Some p) /\
     forall c,
       p !! c =
         match SURVEY_QUESTIONS !! c with
         | Some _ => Some {| level := 0; responses := []; badges := [] |}
         | None => None
         end) /\
  (forall s, get_user_progress (get_user_progress s).2 = get_user_progress s).
Proof.
  split.
  - eexists. split; [reflexivity|]. intros c. apply new_progress_lookup.
  - apply get_user_progress_again.
Qed.

(** The agreement of the percentage with the integer quotient is a fact of
    the level counts of the table: for 29 levels out of 100 the binary64
    product is just below 29 and truncates to 28. *)
Remark percent_depends_on_table :
  (ratio ← truediv 29 100; int (Float.mul ratio (Float.of_int 100))) = Ok 28.
Proof. vm_compute. reflexivity. Qed.

(** C6. On every reachable session the summary page is rendered, with one
    entry per configured category and no other entry, and the percentage of
    each entry is the integer quotient [100 * level / total_levels] rounded
    down; for a category at level 1 (all categories have 3 levels) it is
    33. *)
Theorem summary_percent_is_integer_floor s :
  reachable s ->
  exists infos,
    index s = Ok (RenderIndex infos, (get_user_progress s).2) /\
    (forall c levels,
       SURVEY_QUESTIONS !! c = Some levels ->
       exists d info,
         (get_user_progress s).1 !! c = Some d /\
         info ∈ infos /\ key info = c /\
         percent_complete info = 100 * level d / len levels) /\
    (forall info,
       info ∈ infos ->
       exists levels d,
         SURVEY_QUESTIONS !! key info = Some levels /\
         (get_user_progress s).1 !! key info = Some d /\
         percent_complete info = 100 * level d / len levels) /\
    (forall c levels d,
       SURVEY_QUESTIONS !! c = Some levels ->
       level d = 1 ->
       len levels = 3 /\ percent_complete <$> category_info c d = Ok 33).
Proof.
  intros Hr. apply reachable_ok in Hr.
  pose proof (get_user_progress_ok s Hr) as Hp.
  destruct (index_ok s Hr) as (infos & Hindex & Hall).
  exists infos. split; [exact Hindex|]. split; [|split].
  - intros c levels H.
    destruct (progress_ok_entry _ _ _ Hp H) as (d & Hd & Hl & _).
    pose proof Hd as Hin. apply elem_of_map_to_list in Hin.
    apply list_elem_of_lookup in Hin as [i Hi].
    destruct (Forall2_lookup_l _ _ _ _ _ Hall Hi) as (info & Hinfo & Hci).
    simpl in Hci. rewrite (category_info_ok c levels d H Hl) in Hci.
    injection Hci as <-.
    eexists d, _. split; [exact Hd|]. split.
    + apply list_elem_of_lookup. eauto.
    + split; reflexivity.
  - intros info Hin. apply list_elem_of_lookup in Hin as [i Hi].
    destruct (Forall2_lookup_r _ _ _ _ _ Hall Hi) as ([c d] & Hitem & Hci).
    simpl in Hci.
    apply list_elem_of_lookup_2, elem_of_map_to_list in Hitem.
    pose proof (Hp c) as Hc. rewrite Hitem in Hc.
    destruct (SURVEY_QUESTIONS !! c) as [levels|] eqn:H; [|contradiction].
    rewrite (category_info_ok c levels d H (proj1 Hc)) in Hci.
    injection Hci as <-. simpl. rewrite H. eauto.
  - intros c levels d H Hone.
    destruct (table_shape _ _ H) as [_ Hn]. split; [exact Hn|].
    rewrite (category_info_ok c levels d H) by lia.
    simpl. now rewrite Hone, Hn.
Qed.

Lemma summary_percent_is_integer_floor_witness :
  exists infos,
    index physical_two = Ok (RenderIndex infos, (get_user_progress physical_two).2) /\
    (forall c levels,
       SURVEY_QUESTIONS !! c = Some levels ->
       exists d info,
         (get_user_progress physical_two).1 !! c = Some d /\
         info ∈ infos /\ key info = c /\
         percent_complete info = 100 * level d / len levels) /\
    (forall info,
       info ∈ infos ->
       exists levels d,
         SURVEY_QUESTIONS !! key info = Some levels /\
         (get_user_progress physical_two).1 !! key info = Some d /\
         percent_complete info = 100 * level d / len levels) /\
    (forall c levels d,
       SURVEY_QUESTIONS !! c = Some levels ->
       level d = 1 ->
       len levels = 3 /\ percent_complete <$> category_info c d = Ok 33).
Proof.
  apply (summary_percent_is_integer_floor physical_two).
  apply (reachable_run
           [SubmitSurvey "physical" sample_form; SubmitSurvey "Physical" ∅]
           None); [apply reachable_fresh|].
  vm_compute. reflexivity.
Defined.

(** C7. A request to [/survey/<category>], [GET] or [POST], for a category
    that is not configured, or whose level equals the number of levels, or
    for whose next ordinal the table has no level, is answered by the
    redirect to the summary and leaves the session as it was. *)
Theorem survey_lookup_failure_redirects m form c s :
  (SURVEY_QUESTIONS !! Str.lower c = None \/
   exists levels d,
     SURVEY_QUESTIONS !! Str.lower c = Some levels /\
     (get_user_progress s).1 !! Str.lower c = Some d /\
     (level d = len levels \/
      List.find (fun lvl => lvl_level lvl =? level d + 1) levels = None)) ->
  survey m form c s = Ok (Redirect "index", s).
Proof.
  intros [H | (levels & d & H & Hd & Hfail)].
  - now apply survey_unknown.
  - destruct (table_shape _ _ H) as [Hc Hn].
    assert (Hout : level d < 0 \/ len levels <= level d).
    { destruct Hfail as [E|Hfind]; [lia|].
      destruct (Z_lt_le_dec (level d) 0) as [?|Hpos]; [lia|].
      destruct (Z_lt_le_dec (level d) (len levels)) as [Hlt|?]; [|lia].
      destruct (survey_open c s levels d H Hd) as (lvl & Hlvl & _); [lia|].
      rewrite (find_level_in_range levels 1 (level d + 1) Hc) in Hfind by lia.
      replace (level d + 1 - 1) with (level d) in Hfind by lia. congruence. }
    rewrite (survey_blocked m form c s levels d H Hd Hout).
    destruct s as [p|]; [reflexivity|].
    simpl in Hd. rewrite new_progress_lookup, H in Hd.
    injection Hd as <-. simpl in Hout. lia.
Qed.

Lemma survey_lookup_failure_redirects_witness :
  survey POST sample_form "Physical" physical_done =
  Ok (Redirect "index", physical_done).
Proof.
  apply survey_lookup_failure_redirects. right.
  exists physical_levels,
    (default new_category_progress
       ((get_user_progress physical_done).1 !! "physical")).
  split; [vm_compute; reflexivity|].
  split; [vm_compute; reflexivity|].
  left. vm_compute. reflexivity.
Defined.

(** *** Lower-casing of text and of its bytes *)

Ltac div_lia := zify; Z.to_euclidean_division_equations; lia.

Lemma survey_lower m form c s :
  survey m form c s = survey m form (Str.lower c) s.
Proof. unfold survey. now rewrite lower_idemp. Qed.

Lemma foreign_lower_char a :
  foreign a = true -> foreign (Str.lower_char a) = true.
Proof. destruct a as [[] [] [] [] [] [] [] []]; vm_compute; congruence. Qed.

Lemma has_foreign_lower s :
  has_foreign s = true -> has_foreign (Str.lower s) = true.
Proof.
  induction s as [|a r IH]; simpl; [congruence|].
  rewrite !orb_true_iff. intros [Ha|Hr]; [left|right; auto].
  now apply foreign_lower_char.
Qed.

Lemma has_foreign_app s t :
  has_foreign (s +:+ t) = has_foreign s || has_foreign t.
Proof.
  induction s as [|a r IH]; [reflexivity|].
  change (foreign a || has_foreign (r +:+ t) =
          (foreign a || has_foreign r) || has_foreign t).
  now rewrite IH, orb_assoc.
Qed.

Lemma foreign_not_configured c :
  has_foreign c = true -> SURVEY_QUESTIONS !! c = None.
Proof.
  intros Hf. destruct (SURVEY_QUESTIONS !! c) as [levels|] eqn:H; [|reflexivity].
  destruct (table_cases _ _ H) as [-> | [-> | ->]]; vm_compute in Hf;
    discriminate.
Qed.

Lemma encode_char_foreign y :
  (128 <= y \/ y = 107)%N ->
  has_foreign (string_of_list_ascii (Unicode.encode_char y)) = true.
Proof.
  assert (Hbyte : forall n r, (128 <= n < 256)%N ->
            has_foreign (String (ascii_of_N n) r) = true).
  { intros n r Hn. simpl. unfold foreign.
    rewrite N_ascii_embedding by lia.
    apply orb_true_iff. left. apply orb_true_iff. left.
    apply N.leb_le. lia. }
  intros [Hy | ->]; [|reflexivity].
  unfold Unicode.encode_char.
  destruct (N.ltb_spec y 128) as [?|_]; [lia|].
  destruct (N.ltb_spec y 2048) as [?|?]; [apply Hbyte; div_lia|].
  destruct (N.ltb_spec y 65536) as [?|?]; apply Hbyte; div_lia.
Qed.

Lemma string_app_assoc (s t u : string) : (s +:+ t) +:+ u = s +:+ (t +:+ u).
Proof.
  induction s as [|a s IH]; [reflexivity|].
  change (String a ((s +:+ t) +:+ u) = String a (s +:+ (t +:+ u))).
  f_equal. exact IH.
Qed.

Lemma utf8_app l1 l2 :
  Unicode.utf8 (l1 ++ l2) = Unicode.utf8 l1 +:+ Unicode.utf8 l2.
Proof.
  induction l1 as [|x l1 IH]; simpl; [reflexivity|].
  now rewrite IH, string_app_assoc.
Qed.

Lemma utf8_foreign y l :
  In y l -> (128 <= y \/ y = 107)%N -> has_foreign (Unicode.utf8 l) = true.
Proof.
  intros Hin Hy. induction l as [|x l IH]; [contradiction|].
  simpl. rewrite has_foreign_app. apply orb_true_iff.
  destruct Hin as [-> | Hin]; [left; now apply encode_char_foreign|right; auto].
Qed.

Lemma ascii_char_lower a :
  (N_of_ascii a < 128)%N ->
  Unicode.encode_char (N_of_ascii a) = [a] /\
  Unicode.encode_char (Unicode.lower_ascii (N_of_ascii a)) = [Str.lower_char a].
Proof.
  destruct a as [[] [] [] [] [] [] [] []]; intros H;
    try (vm_compute in H; discriminate); split; reflexivity.
Qed.

Lemma ascii_code_lower x :
  (x < 128)%N ->
  exists a,
    Unicode.encode_char x = [a] /\
    Unicode.encode_char (Unicode.lower_ascii x) = [Str.lower_char a].
Proof.
  intros Hx. exists (ascii_of_N x).
  rewrite <- (N_ascii_embedding x) at 1 3 by lia.
  apply ascii_char_lower. rewrite N_ascii_embedding; lia.
Qed.

Lemma lower_from_ascii unicode_lower cps : forall before,
  Forall (fun x => (x < 128)%N) cps ->
  Unicode.utf8 (Unicode.lower_from unicode_lower before cps) =
  Str.lower (Unicode.utf8 cps).
Proof.
  induction cps as [|x cps IH]; intros before Hall; [reflexivity|].
  inversion Hall as [|? ? Hx Hrest]; subst. simpl.
  destruct (N.ltb_spec x 128) as [_|?]; [|lia].
  destruct (ascii_code_lower x Hx) as (a & Ea & El).
  simpl. rewrite Ea, El. simpl. f_equal. now apply IH.
Qed.

Lemma lower_from_foreign unicode_lower cps : forall before,
  Unicode.lower_table_ok unicode_lower ->
  Exists (fun x => (128 <= x)%N) cps ->
  has_foreign (Unicode.utf8 cps) = true /\
  has_foreign (Unicode.utf8 (Unicode.lower_from unicode_lower before cps)) = true.
Proof.
  intros before Hok Hex. revert before.
  induction Hex as [x cps Hx | x cps Hex IH]; intros before; simpl;
    rewrite utf8_app, !has_foreign_app, !orb_true_iff.
  - split; [left; apply encode_char_foreign; now left|].
    left. destruct (N.ltb_spec x 128) as [?|_]; [lia|].
    destruct (Hok before x cps Hx) as (y & Hin & Hy).
    now apply (utf8_foreign y).
  - destruct (IH (before ++ [x])%list) as [H1 H2]. split; right; assumption.
Qed.

(** The byte-wise lower-casing of the handler against [str.lower]: on ASCII
    text they are the same string, and with a non-ASCII code point both
    strings hold a byte that no category name has. *)
Lemma lower_cases unicode_lower cps :
  Unicode.lower_table_ok unicode_lower ->
  Unicode.utf8 (Unicode.lower unicode_lower cps) = Str.lower (Unicode.utf8 cps) \/
  (has_foreign (Unicode.utf8 cps) = true /\
   has_foreign (Unicode.utf8 (Unicode.lower unicode_lower cps)) = true).
Proof.
  intros Hok.
  destruct (decide (Forall (fun x => (x < 128)%N) cps)) as [Hall|Hex].
  - left. now apply lower_from_ascii.
  - right. apply lower_from_foreign; [exact Hok|].
    apply not_Forall_Exists in Hex; [|apply _].
    eapply Exists_impl; [exact Hex|]. simpl. intros x Hx. lia.
Qed.

(** C9. The category of the route is matched without regard to case, for
    every text [c] (a sequence of code points, received as its UTF-8 bytes):
    a request for [c] returns the response and the session of the request
    for [c.lower()]; the key the handler looks up is the one of [c.lower()];
    and when [c.lower()] is a configured category, [GET] for [c] renders
    the page of that category and [POST] for [c] advances the entry stored
    under [c.lower()].  [/survey/Physical] is [/survey/physical]. *)
Theorem survey_case_insensitive unicode_lower :
  Unicode.lower_table_ok unicode_lower ->
  (forall m form cps s,
     survey m form (Unicode.utf8 cps) s =
     survey m form (Unicode.utf8 (Unicode.lower unicode_lower cps)) s) /\
  (forall cps,
     SURVEY_QUESTIONS !! Str.lower (Unicode.utf8 cps) =
     SURVEY_QUESTIONS !! Unicode.utf8 (Unicode.lower unicode_lower cps)) /\
  (forall cps form s levels d,
     SURVEY_QUESTIONS !! Unicode.utf8 (Unicode.lower unicode_lower cps) =
       Some levels ->
     (get_user_progress s).1 !! Unicode.utf8 (Unicode.lower unicode_lower cps) =
       Some d ->
     0 <= level d < len levels ->
     exists questions answers d',
       survey GET form (Unicode.utf8 cps) s =
         Ok (RenderSurvey (Unicode.utf8 (Unicode.lower unicode_lower cps))
               (level d + 1) questions,
             (get_user_progress s).2) /\
       survey POST form (Unicode.utf8 cps) s =
         Ok (Redirect "index",
             Some (<[Unicode.utf8 (Unicode.lower unicode_lower cps) := d']>
                     (get_user_progress s).1)) /\
       level d' = level d + 1 /\
       responses d' =
         (responses d ++
            [{| resp_level := level d + 1; resp_answers := answers |}])%list) /\
  (forall m form s, survey m form "Physical" s = survey m form "physical" s).
Proof.
  intros Hok.
  assert (Hkey : forall cps levels,
            SURVEY_QUESTIONS !! Unicode.utf8 (Unicode.lower unicode_lower cps)
              = Some levels ->
            Unicode.utf8 (Unicode.lower unicode_lower cps) =
            Str.lower (Unicode.utf8 cps)).
  { intros cps levels H.
    destruct (lower_cases unicode_lower cps Hok) as [E | [_ Hf]]; [exact E|].
    rewrite (foreign_not_configured _ Hf) in H. discriminate. }
  split; [|split; [|split]].
  - intros m form cps s.
    destruct (lower_cases unicode_lower cps Hok) as [E | [Hf1 Hf2]].
    + rewrite E. apply survey_lower.
    + rewrite !survey_unknown; [reflexivity| |];
        apply foreign_not_configured, has_foreign_lower; assumption.
  - intros cps.
    destruct (lower_cases unicode_lower cps Hok) as [E | [Hf1 Hf2]].
    + now rewrite E.
    + rewrite (foreign_not_configured _ Hf2).
      now apply foreign_not_configured, has_foreign_lower.
  - intros cps form s levels d H Hd Hl.
    pose proof (Hkey cps levels H) as E. rewrite E in *.
    destruct (survey_open _ s levels d H Hd Hl) as (lvl & _ & _ & Hget & Hpost).
    eexists (lvl_questions lvl), _, _.
    split; [apply Hget|]. split; [apply Hpost|]. split; reflexivity.
  - intros m form s. apply (survey_lower m form "Physical" s).
Qed.

Lemma survey_case_insensitive_witness :
  exists questions answers d',
    survey GET sample_form (Unicode.utf8 [80; 72; 89; 115; 105; 67; 97; 76]%N)
      physical_two =
      Ok (RenderSurvey "physical" 3 questions,
          (get_user_progress physical_two).2) /\
    survey POST sample_form
      (Unicode.utf8 [80; 72; 89; 115; 105; 67; 97; 76]%N) physical_two =
      Ok (Redirect "index",
          Some (<["physical" := d']> (get_user_progress physical_two).1)) /\
    level d' = 3 /\
    responses d' =
      (responses physical_two_record ++
         [{| resp_level := 3; resp_answers := answers |}])%list.
Proof.
  destruct (survey_case_insensitive Unicode.sample_lower) as (_ & _ & H & _).
  - intros before x after Hx. unfold Unicode.sample_lower.
    destruct (N.eqb_spec x 8490) as [->|_];
      [exists 107%N; split; [now left|now right]|].
    destruct (N.eqb_spec x 304) as [->|_];
      [exists 775%N; split; [right; now left|left; lia]|].
    destruct (N.eqb_spec x 201) as [->|_];
      [exists 233%N; split; [now left|left; lia]|].
    exists x. split; [now left|now left].
  - apply (H [80; 72; 89; 115; 105; 67; 97; 76]%N sample_form physical_two
             physical_levels physical_two_record).
    + vm_compute. reflexivity.
    + vm_compute. reflexivity.
    + vm_compute. split; congruence.
Defined.

(** C10. A [GET] that renders a survey page leaves a session that already
    holds a progress record exactly as it was, and turns a fresh session
    into the one holding the initial record; no category's level changes. *)
Theorem get_survey_page_frame form c s category current_level questions s' :
  survey GET form c s = Ok (RenderSurvey category current_level questions, s') ->
  s' = (get_user_progress s).2 /\
  (forall p, s = Some p -> s' = s) /\
  (s = None ->
   s' = Some (gset_to_gmap new_category_progress (dom SURVEY_QUESTIONS))) /\
  (forall c', level_of s' c' = level_of s c').
Proof.
  intros Hrun.
  assert (Hs' : s' = (get_user_progress s).2).
  { destruct (survey_session _ _ _ _ _ _ Hrun)
      as [E | [E | (levels & d & answers & Hm & _)]];
      [|exact E|discriminate].
    subst s'.
    destruct (SURVEY_QUESTIONS !! Str.lower c) as [levels|] eqn:H.
    - destruct s as [p|]; [reflexivity|].
      unfold survey in Hrun. rewrite H in Hrun. simpl in Hrun.
      unfold getitem in Hrun.
      destruct (gset_to_gmap new_category_progress (dom SURVEY_QUESTIONS)
                  !! Str.lower c) as [d|]; simpl in Hrun; [|discriminate].
      destruct (len levels <? level d + 1); [discriminate|].
      destruct (List.find _ levels); [|discriminate].
      injection Hrun as _ _ _ Hs. discriminate.
    - rewrite (survey_unknown _ _ _ _ H) in Hrun. discriminate. }
  split; [exact Hs'|]. subst s'. split; [|split].
  - now intros p ->.
  - now intros ->.
  - intros c'. apply level_of_get_user_progress.
Qed.

Lemma get_survey_page_frame_witness :
  (get_user_progress physical_two).2 = (get_user_progress physical_two).2 /\
  (forall p, physical_two = Some p ->
             (get_user_progress physical_two).2 = physical_two) /\
  (physical_two = None ->
   (get_user_progress physical_two).2 =
   Some (gset_to_gmap new_category_progress (dom SURVEY_QUESTIONS))) /\
  (forall c', level_of (get_user_progress physical_two).2 c' =
              level_of physical_two c').
Proof.
  apply (get_survey_page_frame ∅ "Physical" physical_two "physical" 3
           (default [] (lvl_questions <$> physical_levels !! 2%nat))).
  vm_compute. reflexivity.
Defined.

(** * Further properties of the handlers *)

(** ** What one request does to the record of a category *)

Lemma survey_post_session form c s resp s' :
  survey POST form c s = Ok (resp, s') ->
  s' = s \/ s' = (get_user_progress s).2 \/
  exists levels d lvl,
    SURVEY_QUESTIONS !! Str.lower c = Some levels /\
    (get_user_progress s).1 !! Str.lower c = Some d /\
    0 <= level d < len levels /\
    levels !! Z.to_nat (level d) = Some lvl /\
    s' = Some (<[Str.lower c :=
                  advanced (Str.lower c) (len levels)
                    (collect_answers form 0 (lvl_questions lvl) []) d]>
                 (get_user_progress s).1).
Proof.
  intros Hrun.
  destruct (survey_session _ _ _ _ _ _ Hrun)
    as [E | [E | (levels & d & answers & _ & H & Hd & Hl & _)]]; auto.
  destruct (survey_open c s levels d H Hd Hl) as (lvl & Hlvl & _ & _ & Hpost).
  rewrite Hpost in Hrun. right; right. exists levels, d, lvl.
  do 4 (split; [assumption|]). now injection Hrun as _ <-.
Qed.

Lemma exec_read_only r s s' :
  exec r s = Ok s' -> is_submission r = false ->
  s' = s \/ s' = (get_user_progress s).2.
Proof.
  intros Hexec Hr. destruct r as [| |c|c form]; simpl in *; try discriminate.
  - right. congruence.
  - destruct (index s) as [[resp s1]|e] eqn:Hi; simpl in Hexec; [|discriminate].
    right. apply index_session in Hi. congruence.
  - destruct (survey GET ∅ c s) as [[resp s1]|e] eqn:Hrun; simpl in Hexec;
      [|discriminate].
    injection Hexec as ->.
    destruct (survey_session _ _ _ _ _ _ Hrun)
      as [E | [E | (levels & d & answers & Hm & _)]]; auto. discriminate.
Qed.

Lemma exec_record r s s' c :
  exec r s = Ok s' ->
  (get_user_progress s').1 !! c = (get_user_progress s).1 !! c \/
  exists c0 form levels d lvl,
    r = SubmitSurvey c0 form /\ Str.lower c0 = c /\
    SURVEY_QUESTIONS !! c = Some levels /\
    (get_user_progress s).1 !! c = Some d /\
    0 <= level d < len levels /\
    levels !! Z.to_nat (level d) = Some lvl /\
    (get_user_progress s').1 !! c =
      Some (advanced c (len levels)
              (collect_answers form 0 (lvl_questions lvl) []) d).
Proof.
  intros Hexec.
  assert (Hsame : s' = s \/ s' = (get_user_progress s).2 ->
            (get_user_progress s').1 !! c = (get_user_progress s).1 !! c).
  { intros [-> | ->]; [reflexivity|]. now rewrite get_user_progress_again. }
  destruct (is_submission r) eqn:Hr.
  2:{ left. apply Hsame. eapply exec_read_only; eauto. }
  destruct r as [| |c0|c0 form]; try discriminate. simpl in Hexec.
  destruct (survey POST form c0 s) as [[resp s1]|e] eqn:Hrun; simpl in Hexec;
    [|discriminate].
  injection Hexec as ->.
  destruct (survey_post_session _ _ _ _ _ Hrun)
    as [E | [E | (levels & d & lvl & H & Hd & Hl & Hlvl & ->)]]; auto.
  simpl. destruct (decide (Str.lower c0 = c)) as [<-|Hne].
  - right. exists c0, form, levels, d, lvl.
    do 6 (split; [assumption || reflexivity|]). apply lookup_insert_eq.
  - left. now apply lookup_insert_ne.
Qed.

Lemma submits_to_false_of_read_only c r :
  is_submission r = false -> submits_to c r = false.
Proof. now destruct r. Qed.

Lemma exec_record_other r s s' c :
  exec r s = Ok s' -> submits_to c r = false ->
  (get_user_progress s').1 !! c = (get_user_progress s).1 !! c.
Proof.
  intros Hexec Hr.
  destruct (exec_record r s s' c Hexec)
    as [E | (c0 & form & levels & d & lvl & -> & Hc & _)]; [exact E|].
  simpl in Hr. apply bool_decide_eq_false in Hr. contradiction.
Qed.

Lemma level_of_lookup s c :
  level_of s c = default 0 (level <$> (get_user_progress s).1 !! c).
Proof.
  rewrite <- level_of_get_user_progress, get_user_progress_session.
  reflexivity.
Qed.

Lemma submissions_to_cons c r rs :
  submissions_to c (r :: rs) =
  (if submits_to c r then 1 else 0) + submissions_to c rs.
Proof.
  unfold submissions_to, len. simpl.
  destruct (submits_to c r); simpl; lia.
Qed.

Lemma submissions_to_nonneg c rs : 0 <= submissions_to c rs.
Proof. unfold submissions_to, len. lia. Qed.

Lemma exec_level_exact r s s' c levels :
  session_ok s -> exec r s = Ok s' ->
  SURVEY_QUESTIONS !! c = Some levels ->
  level_of s' c =
  Z.min (len levels) (level_of s c + if submits_to c r then 1 else 0).
Proof.
  intros Hs Hexec H.
  destruct (progress_ok_entry _ _ _ (get_user_progress_ok s Hs) H)
    as (d & Hd & Hl & _).
  rewrite (level_of_entry s c d Hd).
  destruct (submits_to c r) eqn:Hr.
  - destruct r as [| |c0|c0 form]; try discriminate.
    simpl in Hr. apply bool_decide_eq_true in Hr. subst c. simpl in Hexec.
    destruct (Z_lt_le_dec (level d) (len levels)) as [Hlt|Hge].
    + destruct (survey_open c0 s levels d H Hd) as (lvl & _ & _ & _ & Hpost);
        [lia|].
      rewrite Hpost in Hexec. simpl in Hexec. injection Hexec as <-.
      simpl. rewrite lookup_insert_eq. simpl. lia.
    + rewrite (survey_blocked POST form c0 s levels d H Hd) in Hexec
        by (right; exact Hge).
      simpl in Hexec. injection Hexec as <-.
      rewrite level_of_get_user_progress, (level_of_entry s _ d Hd). lia.
  - rewrite level_of_lookup, (exec_record_other r s s' c Hexec Hr), Hd.
    simpl. lia.
Qed.

Lemma exec_history r s s' c d :
  exec r s = Ok s' ->
  (get_user_progress s).1 !! c = Some d ->
  exists d',
    (get_user_progress s').1 !! c = Some d' /\
    responses d `prefix_of` responses d' /\
    badges d `prefix_of` badges d'.
Proof.
  intros Hexec Hd.
  destruct (exec_record r s s' c Hexec)
    as [E | (c0 & form & levels & d0 & lvl & _ & _ & _ & Hd0 & _ & _ & E)].
  - exists d. rewrite E. split; [exact Hd|]. split; reflexivity.
  - rewrite Hd in Hd0. injection Hd0 as <-.
    eexists. split; [exact E|]. simpl. split.
    + now apply prefix_app_r.
    + destruct (level d + 1 =? len levels); [now apply prefix_app_r|reflexivity].
Qed.

(** ** The decimal field names *)

Lemma of_nat_inj i j : Str.of_nat i = Str.of_nat j -> i = j.
Proof.
  unfold Str.of_nat. intros E.
  assert (Hnn : forall n, Nat.to_uint n <> Decimal.Nil).
  { intros n. rewrite <- (DecimalNat.Unsigned.of_to n) at 1.
    rewrite DecimalNat.Unsigned.to_of. apply DecimalFacts.unorm_nonnil. }
  apply DecimalNat.Unsigned.to_uint_inj.
  pose proof (NilZero.usu _ (Hnn i)) as Hi.
  pose proof (NilZero.usu _ (Hnn j)) as Hj.
  rewrite E in Hi. congruence.
Qed.

Lemma collect_answers_questions form questions :
  question <$> collect_answers form 0 questions [] = questions.
Proof.
  rewrite collect_answers_spec. simpl. rewrite fmap_imap.
  generalize 0%nat. induction questions as [|q questions IH]; intros n.
  - reflexivity.
  - simpl. f_equal. rewrite <- (IH (S n)) at 2.
    apply imap_ext. intros i x _. simpl. reflexivity.
Qed.

(** ** The full shape of the stored records *)

Lemma table_keys_lower c levels :
  SURVEY_QUESTIONS !! c = Some levels -> Str.lower c = c.
Proof.
  intros H. destruct (table_cases _ _ H) as [-> | [-> | ->]]; reflexivity.
Qed.

Lemma table_questions c levels (i : nat) lvl :
  SURVEY_QUESTIONS !! c = Some levels -> levels !! i = Some lvl ->
  length (lvl_questions lvl) = 2%nat.
Proof.
  intros H Hi. apply elem_of_list_to_map_2 in H.
  repeat (apply elem_of_cons in H as [H|H];
    [injection H as _ Hl; subst levels;
     destruct i as [|[|[|i]]]; simpl in Hi; try discriminate;
     injection Hi as <-; reflexivity|]).
  now apply elem_of_nil in H.
Qed.

Lemma get_user_progress_exact s :
  session_exact s -> progress_exact (get_user_progress s).1.
Proof.
  destruct s as [p|]; simpl; [tauto|]. intros _ c levels d H Hd.
  rewrite new_progress_lookup, H in Hd. injection Hd as <-.
  destruct (table_shape _ _ H) as [_ Hn]. split.
  - intros i r Hr. discriminate.
  - simpl. now rewrite Hn.
Qed.

Lemma advanced_exact c levels lvl form d :
  category_ok (len levels) d -> record_exact c levels d ->
  level d < len levels ->
  levels !! Z.to_nat (level d) = Some lvl ->
  record_exact c levels
    (advanced c (len levels) (collect_answers form 0 (lvl_questions lvl) []) d).
Proof.
  intros (Hl & Hresp & _) (Hhist & Hb) Hlt Hlvl. unfold len in Hresp.
  split; simpl.
  - intros i r Hr. apply lookup_snoc_Some in Hr as [[_ Hr] | [Hi <-]].
    + now apply Hhist.
    + simpl. split; [lia|]. exists lvl. split.
      * rewrite <- Hlvl. f_equal. lia.
      * apply collect_answers_questions.
  - rewrite Hb.
    destruct (Z.eqb_spec (level d) (len levels)) as [E|_]; [lia|].
    now destruct (level d + 1 =? len levels).
Qed.

Lemma exec_exact r s s' :
  session_ok s -> session_exact s -> exec r s = Ok s' -> session_exact s'.
Proof.
  intros Hok Hex Hexec.
  pose proof (get_user_progress_ok s Hok) as Hp.
  pose proof (get_user_progress_exact s Hex) as Hpe.
  destruct s' as [p'|]; [|exact I]. intros c levels d' H Hd'.
  destruct (exec_record r s (Some p') c Hexec)
    as [E | (c0 & form & levels0 & d & lvl & _ & _ & H0 & Hd & Hl & Hlvl & E)];
    simpl in E; rewrite Hd' in E.
  - apply (Hpe c levels d' H). now symmetry.
  - rewrite H in H0. injection H0 as <-. injection E as ->.
    destruct (progress_ok_entry _ _ _ Hp H) as (d0 & Hd0 & Hcat).
    rewrite Hd in Hd0. injection Hd0 as <-.
    apply advanced_exact; [exact Hcat|now apply (Hpe c)|lia|exact Hlvl].
Qed.

Lemma reachable_exact s : reachable s -> session_exact s.
Proof.
  induction 1 as [|r s s' Hr IH Hexec]; [exact I|].
  eapply exec_exact; eauto using reachable_ok.
Qed.

(** ** The loop of the summary page on a foreign key *)

Lemma index_loop_raises k d items : forall acc,
  (k, d) ∈ items -> SURVEY_QUESTIONS !! k = None ->
  exists e, index_loop items acc = Raise e.
Proof.
  induction items as [|[c d0] items IH]; intros acc Hin Hk.
  - now apply elem_of_nil in Hin.
  - simpl. destruct (category_info c d0) as [info|e] eqn:Hci; simpl; [|eauto].
    apply elem_of_cons in Hin as [Heq|Hin]; [|now apply IH].
    injection Heq as <- <-.
    unfold category_info, getitem in Hci. rewrite Hk in Hci. discriminate.
Qed.

Lemma index_keys items : forall infos,
  Forall2 (fun item info => category_info item.1 item.2 = Ok info) items infos ->
  key <$> infos = items.*1.
Proof.
  induction items as [|[c d] items IH]; intros infos Hall;
    inversion Hall as [|? info ? infos' Hci Hrest]; subst; [reflexivity|].
  rewrite fmap_cons, (IH infos' Hrest). simpl in *. f_equal.
  unfold category_info in Hci.
  destruct (getitem SURVEY_QUESTIONS c) as [levels|]; simpl in Hci;
    [|discriminate].
  destruct (truediv (level d) (len levels)) as [ratio|]; simpl in Hci;
    [|discriminate].
  destruct (int _) as [percent|]; simpl in Hci; [|discriminate].
  now injection Hci as <-.
Qed.

(** ** Forms *)

Lemma collect_answers_ext f1 f2 questions idx answers :
  (forall i : nat, f1 !! field_name i = f2 !! field_name i) ->
  collect_answers f1 idx questions answers =
  collect_answers f2 idx questions answers.
Proof.
  intros Hagree. rewrite !collect_answers_spec. f_equal.
  apply imap_ext. intros i q _. simpl.
  pose proof (Hagree (idx + i)%nat) as E. unfold field_name in E.
  now rewrite E.
Qed.

Lemma field_name_injective : Inj (=) (=) field_name.
Proof.
  intros i j E. unfold field_name in E. simpl in E.
  injection E as E. now apply of_nat_inj.
Qed.

Lemma form_of_answers_fields (answers : list string) :
  (imap (fun i a => (field_name i, a)) answers).*1 =
  field_name <$> seq 0 (length answers).
Proof. rewrite fmap_imap. apply (imap_seq_0 answers field_name). Qed.

Lemma form_of_answers_lookup answers i :
  form_of_answers answers !! field_name i = answers !! i.
Proof.
  unfold form_of_answers.
  destruct (answers !! i) as [a|] eqn:Hi.
  - apply elem_of_list_to_map_1.
    + rewrite form_of_answers_fields.
      apply (NoDup_fmap_2 (Inj0 := field_name_injective) field_name).
      apply NoDup_seq.
    + apply (elem_of_lookup_imap_2 (fun i a => (field_name i, a))). exact Hi.
  - apply not_elem_of_list_to_map_1. rewrite form_of_answers_fields.
    intros Hin. apply list_elem_of_fmap in Hin as (j & Hj & Hin).
    apply field_name_injective in Hj. subst j.
    apply elem_of_seq in Hin. apply lookup_ge_None in Hi. lia.
Qed.

(** ** Exceptions of the summary page *)

Lemma category_info_raise c d e :
  category_info c d = Raise e ->
  (SURVEY_QUESTIONS !! c = None /\ e = KeyError c) \/
  e = OverflowError \/ e = ValueError.
Proof.
  unfold category_info, getitem.
  destruct (SURVEY_QUESTIONS !! c) as [levels|] eqn:H; simpl.
  2:{ intros E. injection E as <-. now left. }
  destruct (table_shape _ _ H) as [_ Hn]. rewrite Hn.
  unfold truediv. simpl.
  destruct (Float.mul _ _) as [b|b| |b m k]; simpl; intros E;
    try discriminate; injection E as <-; auto.
Qed.

Lemma index_loop_raise items e : forall acc,
  index_loop items acc = Raise e ->
  (exists k d, (k, d) ∈ items /\ SURVEY_QUESTIONS !! k = None /\ e = KeyError k) \/
  e = OverflowError \/ e = ValueError.
Proof.
  induction items as [|[c d] items IH]; intros acc Hrun; simpl in Hrun;
    [discriminate|].
  destruct (category_info c d) as [info|e0] eqn:Hci; simpl in Hrun.
  - destruct (IH _ Hrun) as [(k & d0 & Hin & Hk & He) | Hother]; [|now right].
    left. exists k, d0. split; [now right|]. now split.
  - injection Hrun as ->.
    destruct (category_info_raise c d e Hci) as [[Hk He] | Hother]; [|now right].
    left. exists c, d. split; [now left|]. now split.
Qed.

(** * Further results *)

(** X1. For a configured category whose record holds level [n] with
    [0 <= n < total_levels], a [GET /survey/<category>] renders the survey
    page of level [n + 1] with the questions of the table's entry of that
    ordinal, which are not empty, under the lower-cased category name. *)
Theorem get_survey_page_serves_next_level c form s levels d :
  SURVEY_QUESTIONS !! Str.lower c = Some levels ->
  (get_user_progress s).1 !! Str.lower c = Some d ->
  0 <= level d < len levels ->
  exists lvl,
    levels !! Z.to_nat (level d) = Some lvl /\
    lvl_level lvl = level d + 1 /\
    lvl_questions lvl <> [] /\
    survey GET form c s =
      Ok (RenderSurvey (Str.lower c) (level d + 1) (lvl_questions lvl),
          (get_user_progress s).2).
Proof.
  intros H Hd Hl.
  destruct (survey_open c s levels d H Hd Hl) as (lvl & Hlvl & Hord & Hget & _).
  exists lvl. split; [exact Hlvl|]. split; [exact Hord|]. split; [|apply Hget].
  pose proof (table_questions _ _ _ _ H Hlvl) as Hq.
  destruct (lvl_questions lvl); [discriminate|congruence].
Qed.

Lemma get_survey_page_serves_next_level_witness :
  exists lvl,
    physical_levels !! 2%nat = Some lvl /\
    lvl_level lvl = 3 /\
    lvl_questions lvl <> [] /\
    survey GET sample_form "PHYSICAL" physical_two =
      Ok (RenderSurvey "physical" 3 (lvl_questions lvl),
          (get_user_progress physical_two).2).
Proof.
  apply (get_survey_page_serves_next_level "PHYSICAL" sample_form physical_two
           physical_levels physical_two_record).
  - vm_compute. reflexivity.
  - vm_compute. reflexivity.
  - vm_compute. split; congruence.
Defined.

(** X2. When the session holds a progress record without an entry for a
    configured category, a request to [/survey/<category>], [GET] or [POST],
    raises [KeyError] for the lower-cased category: the record is created
    once and not completed afterwards. *)
Theorem survey_raises_on_missing_entry m form c p levels :
  SURVEY_QUESTIONS !! Str.lower c = Some levels ->
  p !! Str.lower c = None ->
  survey m form c (Some p) = Raise (KeyError (Str.lower c)).
Proof.
  intros H Hp. unfold survey. rewrite H. simpl.
  unfold getitem. now rewrite Hp.
Qed.

Lemma survey_raises_on_missing_entry_witness :
  survey GET ∅ "Mental" (Some progress_without_mental) =
  Raise (KeyError "mental").
Proof.
  apply (survey_raises_on_missing_entry GET ∅ "Mental" progress_without_mental
           (default [] (SURVEY_QUESTIONS !! "mental"))).
  - vm_compute. reflexivity.
  - vm_compute. reflexivity.
Defined.

(** X3. When the progress record of the session holds a key that is not a
    category of the table, the summary page is not rendered: [index] raises
    an exception. *)
Theorem index_raises_on_foreign_key p k d :
  p !! k = Some d ->
  SURVEY_QUESTIONS !! k = None ->
  exists e, index (Some p) = Raise e.
Proof.
  intros Hd Hk. unfold index. simpl.
  destruct (index_loop_raises k d (map_to_list p) []) as (e & He); [|exact Hk|].
  - now apply elem_of_map_to_list.
  - exists e. now rewrite He.
Qed.

Lemma index_raises_on_foreign_key_witness :
  exists e, index (Some progress_with_social) = Raise e.
Proof.
  apply (index_raises_on_foreign_key progress_with_social "social"
           new_category_progress).
  - vm_compute. reflexivity.
  - vm_compute. reflexivity.
Defined.

(** X4. From a reachable session a sequence of requests leaves a category at
    its former level plus the number of submissions made to it, capped at
    the number of levels of the category. *)
Theorem level_counts_submissions rs s c levels :
  reachable s ->
  SURVEY_QUESTIONS !! c = Some levels ->
  exists s',
    run rs s = Ok s' /\
    level_of s' c = Z.min (len levels) (level_of s c + submissions_to c rs).
Proof.
  intros Hr H. apply reachable_ok in Hr. revert s Hr.
  induction rs as [|r rs IH]; intros s Hs.
  - exists s. split; [reflexivity|].
    pose proof (session_ok_level_bound s c levels Hs H).
    unfold submissions_to, len in *. simpl. lia.
  - destruct (exec_ok r s Hs) as (s1 & Hexec & Hs1).
    destruct (IH s1 Hs1) as (s' & Hrun & Hlevel).
    exists s'. simpl. rewrite Hexec. simpl. split; [exact Hrun|].
    rewrite Hlevel, (exec_level_exact r s s1 c levels Hs Hexec H).
    rewrite submissions_to_cons.
    pose proof (submissions_to_nonneg c rs).
    destruct (submits_to c r); lia.
Qed.

Lemma level_counts_submissions_witness :
  exists s',
    run [SubmitSurvey "Physical" ∅; GetIndex; SubmitSurvey "mental" ∅;
         SubmitSurvey "physical" sample_form] physical_two = Ok s' /\
    level_of s' "physical" =
      Z.min (len physical_levels)
        (level_of physical_two "physical" +
         submissions_to "physical"
           [SubmitSurvey "Physical" ∅; GetIndex; SubmitSurvey "mental" ∅;
            SubmitSurvey "physical" sample_form]).
Proof.
  apply (level_counts_submissions _ physical_two "physical").
  - apply (reachable_run
             [SubmitSurvey "physical" sample_form; SubmitSurvey "Physical" ∅]
             None); [apply reachable_fresh|].
    vm_compute. reflexivity.
  - vm_compute. reflexivity.
Defined.

(** X5. Stored history is only extended: over any sequence of requests that
    runs to the end, the responses and the badges a category held before are
    a prefix of those it holds after. *)
Theorem history_append_only rs : forall s s' c d,
  run rs s = Ok s' ->
  (get_user_progress s).1 !! c = Some d ->
  exists d',
    (get_user_progress s').1 !! c = Some d' /\
    responses d `prefix_of` responses d' /\
    badges d `prefix_of` badges d'.
Proof.
  induction rs as [|r rs IH]; intros s s' c d Hrun Hd; simpl in Hrun.
  - injection Hrun as <-. exists d. split; [exact Hd|]. split; reflexivity.
  - destruct (exec r s) as [s1|e] eqn:Hexec; simpl in Hrun; [|discriminate].
    destruct (exec_history r s s1 c d Hexec Hd) as (d1 & Hd1 & Hr1 & Hb1).
    destruct (IH s1 s' c d1 Hrun Hd1) as (d' & Hd' & Hr' & Hb').
    exists d'. split; [exact Hd'|]. split; etransitivity; eassumption.
Qed.

Lemma history_append_only_witness :
  exists d',
    (get_user_progress physical_done).1 !! "physical" = Some d' /\
    responses physical_two_record `prefix_of` responses d' /\
    badges physical_two_record `prefix_of` badges d'.
Proof.
  apply (history_append_only [SubmitSurvey "PHYSICAL" sample_form] physical_two).
  - vm_compute. reflexivity.
  - vm_compute. reflexivity.
Defined.

(** X6. A sequence of requests without a submission to a category leaves the
    record of that category as it was, and a sequence without any submission
    leaves the whole progress record as it was. *)
Theorem requests_frame rs : forall s s',
  run rs s = Ok s' ->
  (forall c,
     Forall (fun r => submits_to c r = false) rs ->
     (get_user_progress s').1 !! c = (get_user_progress s).1 !! c) /\
  (Forall (fun r => is_submission r = false) rs ->
   (get_user_progress s').1 = (get_user_progress s).1).
Proof.
  assert (Hone : forall s s' c,
            run rs s = Ok s' ->
            Forall (fun r => submits_to c r = false) rs ->
            (get_user_progress s').1 !! c = (get_user_progress s).1 !! c).
  { induction rs as [|r rs IH]; intros s s' c Hrun Hall; simpl in Hrun.
    - now injection Hrun as <-.
    - destruct (exec r s) as [s1|e] eqn:Hexec; simpl in Hrun; [|discriminate].
      inversion Hall as [|? ? Hr Hrest]; subst.
      rewrite (IH s1 s' c Hrun Hrest).
      exact (exec_record_other r s s1 c Hexec Hr). }
  intros s s' Hrun. split; [intros c; now apply Hone|].
  intros Hall. apply map_eq. intros c. apply (Hone s s' c Hrun).
  eapply Forall_impl; [exact Hall|]. intros r.
  apply (submits_to_false_of_read_only c r).
Qed.

Lemma requests_frame_witness :
  (forall c,
     Forall (fun r => submits_to c r = false)
       [GetSurveyPage "mental"; GetIndex; GetOrInitProgress] ->
     (get_user_progress (get_user_progress None).2).1 !! c =
     (get_user_progress None).1 !! c) /\
  (Forall (fun r => is_submission r = false)
     [GetSurveyPage "mental"; GetIndex; GetOrInitProgress] ->
   (get_user_progress (get_user_progress None).2).1 =
   (get_user_progress None).1).
Proof.
  apply (requests_frame [GetSurveyPage "mental"; GetIndex; GetOrInitProgress]
           None (get_user_progress None).2).
  vm_compute. reflexivity.
Defined.

(** X7. In every reachable session the responses stored for a category are
    those of the levels 1, 2, ..., up to its level, in this order, and each
    of them lists the questions of the table's entry of its level. *)
Theorem reachable_history_in_order s p c levels d :
  reachable s ->
  s = Some p ->
  SURVEY_QUESTIONS !! c = Some levels ->
  p !! c = Some d ->
  resp_level <$> responses d = seqZ 1 (level d) /\
  forall (i : nat) r,
    responses d !! i = Some r ->
    exists lvl,
      levels !! i = Some lvl /\
      lvl_level lvl = resp_level r /\
      question <$> resp_answers r = lvl_questions lvl.
Proof.
  intros Hr -> H Hd.
  pose proof (reachable_ok _ Hr) as Hok.
  pose proof (reachable_exact _ Hr) as Hex. simpl in Hok, Hex.
  destruct (progress_ok_entry _ _ _ Hok H) as (d0 & Hd0 & Hl & Hresp & _).
  rewrite Hd in Hd0. injection Hd0 as <-.
  destruct (Hex c levels d H Hd) as (Hhist & _).
  destruct (table_shape _ _ H) as [Hc _].
  unfold len in Hresp. split.
  - apply list_eq. intros i. rewrite list_lookup_fmap.
    destruct (responses d !! i) as [r|] eqn:Hi; simpl.
    + destruct (Hhist i r Hi) as (-> & _).
      apply lookup_lt_Some in Hi.
      rewrite lookup_seqZ_lt by lia. f_equal. lia.
    + apply lookup_ge_None in Hi. rewrite lookup_seqZ_ge by lia. reflexivity.
  - intros i r Hi. destruct (Hhist i r Hi) as (Hlv & lvl & Hlvl & Hq).
    exists lvl. split; [exact Hlvl|]. split; [|exact Hq].
    rewrite (Hc i lvl Hlvl). lia.
Qed.

Lemma reachable_history_in_order_witness :
  resp_level <$> responses physical_two_record =
    seqZ 1 (level physical_two_record) /\
  forall (i : nat) r,
    responses physical_two_record !! i = Some r ->
    exists lvl,
      physical_levels !! i = Some lvl /\
      lvl_level lvl = resp_level r /\
      question <$> resp_answers r = lvl_questions lvl.
Proof.
  apply (reachable_history_in_order physical_two
           (get_user_progress physical_two).1 "physical").
  - apply (reachable_run
             [SubmitSurvey "physical" sample_form; SubmitSurvey "Physical" ∅]
             None); [apply reachable_fresh|].
    vm_compute. reflexivity.
  - vm_compute. reflexivity.
  - vm_compute. reflexivity.
  - vm_compute. reflexivity.
Defined.

(** X8. In every reachable session a category holds the badge
    ["<Category> Champion"], and only it, exactly when its level is the
    number of its levels; before that it holds no badge. *)
Theorem reachable_badges_exact s p c levels d :
  reachable s ->
  s = Some p ->
  SURVEY_QUESTIONS !! c = Some levels ->
  p !! c = Some d ->
  badges d = if level d =? len levels
             then [Str.capitalize c +:+ " Champion"] else [].
Proof.
  intros Hr -> H Hd.
  pose proof (reachable_exact _ Hr) as Hex. simpl in Hex.
  now destruct (Hex c levels d H Hd) as (_ & Hb).
Qed.

Lemma reachable_badges_exact_witness :
  badges (default new_category_progress
            ((get_user_progress physical_done).1 !! "physical")) =
  ["Physical Champion"].
Proof.
  apply (reachable_badges_exact physical_done
           (get_user_progress physical_done).1 "physical" physical_levels).
  - apply (reachable_run
             [SubmitSurvey "physical" sample_form; SubmitSurvey "Physical" ∅;
              SubmitSurvey "PHYSICAL" sample_form]
             None); [apply reachable_fresh|].
    vm_compute. reflexivity.
  - vm_compute. reflexivity.
  - vm_compute. reflexivity.
  - vm_compute. reflexivity.
Defined.

(** X9. The summary page and the survey route agree: on a reachable session,
    an entry whose [next_level] is [n] names a category for which
    [GET /survey/<key>] renders level [n], and an entry without [next_level]
    names one for which every request to [/survey/<key>] is redirected to
    the summary. *)
Theorem summary_links_are_served s :
  reachable s ->
  exists infos,
    index s = Ok (RenderIndex infos, (get_user_progress s).2) /\
    forall info,
      info ∈ infos ->
      match next_level info with
      | Some n =>
          exists questions,
            forall form,
              survey GET form (key info) (get_user_progress s).2 =
              Ok (RenderSurvey (key info) n questions, (get_user_progress s).2)
      | None =>
          forall m form,
            survey m form (key info) (get_user_progress s).2 =
            Ok (Redirect "index", (get_user_progress s).2)
      end.
Proof.
  intros Hr. apply reachable_ok in Hr.
  pose proof (get_user_progress_ok s Hr) as Hp.
  destruct (index_ok s Hr) as (infos & Hindex & Hall).
  exists infos. split; [exact Hindex|].
  intros info Hin. apply list_elem_of_lookup in Hin as [i Hi].
  destruct (Forall2_lookup_r _ _ _ _ _ Hall Hi) as ([c d] & Hitem & Hci).
  simpl in Hci.
  apply list_elem_of_lookup_2, elem_of_map_to_list in Hitem.
  pose proof (Hp c) as Hc. rewrite Hitem in Hc.
  destruct (SURVEY_QUESTIONS !! c) as [levels|] eqn:H; [|contradiction].
  rewrite (category_info_ok c levels d H (proj1 Hc)) in Hci.
  injection Hci as <-. simpl.
  pose proof (table_keys_lower c levels H) as Hlow.
  assert (H' : SURVEY_QUESTIONS !! Str.lower c = Some levels)
    by now rewrite Hlow.
  assert (Hd' : (get_user_progress (get_user_progress s).2).1 !! Str.lower c
                = Some d)
    by now rewrite get_user_progress_again, Hlow.
  pose proof (f_equal snd (get_user_progress_again s)) as Hsnd.
  simpl in Hsnd.
  destruct (Z.ltb_spec (level d) (len levels)) as [Hlt|Hge].
  - destruct (survey_open c _ levels d H' Hd') as (lvl & _ & _ & Hget & _).
    { destruct Hc as (Hl & _). lia. }
    exists (lvl_questions lvl). intros form.
    rewrite Hget, Hlow, Hsnd. reflexivity.
  - intros m form.
    rewrite (survey_blocked m form c _ levels d H' Hd') by (right; exact Hge).
    now rewrite Hsnd.
Qed.

Lemma summary_links_are_served_witness :
  exists infos,
    index physical_done =
      Ok (RenderIndex infos, (get_user_progress physical_done).2) /\
    forall info,
      info ∈ infos ->
      match next_level info with
      | Some n =>
          exists questions,
            forall form,
              survey GET form (key info) (get_user_progress physical_done).2 =
              Ok (RenderSurvey (key info) n questions,
                  (get_user_progress physical_done).2)
      | None =>
          forall m form,
            survey m form (key info) (get_user_progress physical_done).2 =
            Ok (Redirect "index", (get_user_progress physical_done).2)
      end.
Proof.
  apply (summary_links_are_served physical_done).
  apply (reachable_run
           [SubmitSurvey "physical" sample_form; SubmitSurvey "Physical" ∅;
            SubmitSurvey "PHYSICAL" sample_form]
           None); [apply reachable_fresh|].
  vm_compute. reflexivity.
Defined.

(** X10. On a reachable session every entry of the summary is consistent:
    its name is the capitalized key; without a next level it shows 100
    percent and the single badge ["<Name> Champion"]; with a next level [n]
    it shows less than 100 percent, no badge, and [n] is one more than the
    level of the category. *)
Theorem summary_entry_coherent s :
  reachable s ->
  exists infos,
    index s = Ok (RenderIndex infos, (get_user_progress s).2) /\
    forall info,
      info ∈ infos ->
      name info = Str.capitalize (key info) /\
      match next_level info with
      | None =>
          percent_complete info = 100 /\
          info_badges info = [name info +:+ " Champion"]
      | Some n =>
          0 <= percent_complete info < 100 /\
          info_badges info = [] /\
          n = level_of s (key info) + 1
      end.
Proof.
  intros Hr.
  pose proof (reachable_ok _ Hr) as Hok.
  pose proof (get_user_progress_ok s Hok) as Hp.
  pose proof (get_user_progress_exact s (reachable_exact _ Hr)) as Hex.
  destruct (index_ok s Hok) as (infos & Hindex & Hall).
  exists infos. split; [exact Hindex|].
  intros info Hin. apply list_elem_of_lookup in Hin as [i Hi].
  destruct (Forall2_lookup_r _ _ _ _ _ Hall Hi) as ([c d] & Hitem & Hci).
  simpl in Hci.
  apply list_elem_of_lookup_2, elem_of_map_to_list in Hitem.
  pose proof (Hp c) as Hc. rewrite Hitem in Hc.
  destruct (SURVEY_QUESTIONS !! c) as [levels|] eqn:H; [|contradiction].
  rewrite (category_info_ok c levels d H (proj1 Hc)) in Hci.
  injection Hci as <-. simpl. split; [reflexivity|].
  destruct (Hex c levels d H Hitem) as (_ & Hb).
  rewrite (level_of_entry s c d Hitem).
  destruct (table_shape _ _ H) as [_ Hn]. rewrite Hn in *.
  destruct Hc as (Hl & _). rewrite Hb.
  assert (level d = 0 \/ level d = 1 \/ level d = 2 \/ level d = 3)
    as [-> | [-> | [-> | ->]]] by lia; simpl; repeat split;
    try lia; apply Z.div_pos; lia.
Qed.

Lemma summary_entry_coherent_witness :
  exists infos,
    index physical_done =
      Ok (RenderIndex infos, (get_user_progress physical_done).2) /\
    forall info,
      info ∈ infos ->
      name info = Str.capitalize (key info) /\
      match next_level info with
      | None =>
          percent_complete info = 100 /\
          info_badges info = [name info +:+ " Champion"]
      | Some n =>
          0 <= percent_complete info < 100 /\
          info_badges info = [] /\
          n = level_of physical_done (key info) + 1
      end.
Proof.
  apply (summary_entry_coherent physical_done).
  apply (reachable_run
           [SubmitSurvey "physical" sample_form; SubmitSurvey "Physical" ∅;
            SubmitSurvey "PHYSICAL" sample_form]
           None); [apply reachable_fresh|].
  vm_compute. reflexivity.
Defined.

(** X11. On a reachable session the summary lists each configured category
    exactly once: the keys of its entries are a permutation of the names of
    the three categories. *)
Theorem summary_lists_each_category_once s :
  reachable s ->
  exists infos,
    index s = Ok (RenderIndex infos, (get_user_progress s).2) /\
    key <$> infos ≡ₚ ["spiritual"; "physical"; "mental"].
Proof.
  intros Hr. apply reachable_ok in Hr.
  pose proof (get_user_progress_ok s Hr) as Hp.
  destruct (index_ok s Hr) as (infos & Hindex & Hall).
  exists infos. split; [exact Hindex|].
  rewrite (index_keys _ _ Hall).
  apply NoDup_Permutation.
  - apply NoDup_fst_map_to_list.
  - apply (bool_decide_unpack _). vm_compute. exact I.
  - intros c. rewrite list_elem_of_fmap. split.
    + intros ([c' d] & -> & Hin). simpl.
      apply elem_of_map_to_list in Hin.
      pose proof (Hp c') as Hc. rewrite Hin in Hc.
      destruct (SURVEY_QUESTIONS !! c') as [levels|] eqn:H; [|contradiction].
      destruct (table_cases _ _ H) as [-> | [-> | ->]];
        repeat first [apply list_elem_of_here | apply list_elem_of_further].
    + intros Hin.
      assert (is_Some (SURVEY_QUESTIONS !! c)) as [levels H].
      { repeat (apply elem_of_cons in Hin as [-> | Hin];
                [vm_compute; eauto|]).
        now apply elem_of_nil in Hin. }
      destruct (progress_ok_entry _ _ _ Hp H) as (d & Hd & _).
      exists (c, d). split; [reflexivity|]. now apply elem_of_map_to_list.
Qed.

Lemma summary_lists_each_category_once_witness :
  exists infos,
    index physical_two =
      Ok (RenderIndex infos, (get_user_progress physical_two).2) /\
    key <$> infos ≡ₚ ["spiritual"; "physical"; "mental"].
Proof.
  apply (summary_lists_each_category_once physical_two).
  apply (reachable_run
           [SubmitSurvey "physical" sample_form; SubmitSurvey "Physical" ∅]
           None); [apply reachable_fresh|].
  vm_compute. reflexivity.
Defined.

(** X12. The handler reads no form field other than [q0], [q1], ...: two
    forms that agree on these fields give the same response and the same
    session on [POST], and on [GET] the form is not read at all. *)
Theorem survey_reads_only_answer_fields m f1 f2 c s :
  (m = POST -> forall i : nat, f1 !! field_name i = f2 !! field_name i) ->
  survey m f1 c s = survey m f2 c s.
Proof.
  intros Hagree. unfold survey.
  destruct (SURVEY_QUESTIONS !! Str.lower c) as [levels|]; [|reflexivity].
  destruct (get_user_progress s) as [p s1].
  destruct (getitem p (Str.lower c)) as [d|e]; [|reflexivity]. simpl.
  destruct (len levels <? level d + 1); [reflexivity|].
  destruct (List.find _ levels) as [lvl|]; [|reflexivity].
  destruct m; [reflexivity|].
  now rewrite (collect_answers_ext f1 f2 _ _ _ (Hagree eq_refl)).
Qed.

Lemma survey_reads_only_answer_fields_witness :
  survey POST sample_form "physical" None =
  survey POST answers_only_form "physical" None.
Proof.
  apply survey_reads_only_answer_fields. intros _ i.
  unfold sample_form, answers_only_form, field_name.
  destruct (decide ("q0" = "q" +:+ Str.of_nat i)) as [<-|Hne].
  - now rewrite !lookup_insert_eq.
  - rewrite !(lookup_insert_ne _ "q0") by exact Hne.
    rewrite lookup_insert_ne by discriminate. reflexivity.
Defined.

(** X13. The field names [q<i>] of different question indices are
    different. *)
Theorem field_names_distinct i j :
  field_name i = field_name j -> i = j.
Proof.
  unfold field_name. simpl. intros E. injection E as E.
  now apply of_nat_inj.
Qed.

Lemma field_names_distinct_witness : 12%nat = 12%nat.
Proof. apply (field_names_distinct 12 12). reflexivity. Defined.

(** X14. Answers sent positionally are stored positionally: when the form
    holds the answers of a list under the fields [q0], [q1], ..., the
    response appended by the submission pairs the question at index [i]
    with the answer at index [i], and with the empty string when the list
    is shorter; answers beyond the questions are not stored. *)
Theorem submitted_answers_round_trip c answers s levels d :
  SURVEY_QUESTIONS !! Str.lower c = Some levels ->
  (get_user_progress s).1 !! Str.lower c = Some d ->
  0 <= level d < len levels ->
  exists lvl recorded d',
    levels !! Z.to_nat (level d) = Some lvl /\
    survey POST (form_of_answers answers) c s =
      Ok (Redirect "index",
          Some (<[Str.lower c := d']> (get_user_progress s).1)) /\
    responses d' =
      (responses d ++
         [{| resp_level := level d + 1; resp_answers := recorded |}])%list /\
    length recorded = length (lvl_questions lvl) /\
    forall (i : nat) q,
      lvl_questions lvl !! i = Some q ->
      recorded !! i =
        Some {| question := q;
                answer := default EmptyString (answers !! i) |}.
Proof.
  intros H Hd Hl.
  destruct (survey_open c s levels d H Hd Hl) as (lvl & Hlvl & _ & _ & Hpost).
  eexists lvl, _, _. split; [exact Hlvl|]. split; [apply Hpost|].
  split; [reflexivity|]. rewrite collect_answers_spec. simpl. split.
  - apply length_imap.
  - intros i q Hq. rewrite list_lookup_imap, Hq. simpl.
    pose proof (form_of_answers_lookup answers i) as E.
    unfold field_name in E. now rewrite E.
Qed.

Lemma submitted_answers_round_trip_witness :
  exists lvl recorded d',
    physical_levels !! 0%nat = Some lvl /\
    survey POST (form_of_answers ["yes"]) "Physical" None =
      Ok (Redirect "index",
          Some (<["physical" := d']> (get_user_progress None).1)) /\
    responses d' = [{| resp_level := 1; resp_answers := recorded |}] /\
    length recorded = length (lvl_questions lvl) /\
    forall (i : nat) q,
      lvl_questions lvl !! i = Some q ->
      recorded !! i =
        Some {| question := q;
                answer := default EmptyString (["yes"] !! i) |}.
Proof.
  apply (submitted_answers_round_trip "Physical" ["yes"] None
           physical_levels new_category_progress).
  - vm_compute. reflexivity.
  - vm_compute. reflexivity.
  - vm_compute. split; congruence.
Defined.

(** X15. The only exception of the survey route is the [KeyError] of a
    progress record without the requested configured category: whenever
    [survey] raises, the session holds such a record and the exception is
    the [KeyError] of the lower-cased category.  On a fresh session, and for
    an unknown category, it never raises. *)
Theorem survey_raises_only_key_error m form c s e :
  survey m form c s = Raise e ->
  exists p levels,
    s = Some p /\
    SURVEY_QUESTIONS !! Str.lower c = Some levels /\
    p !! Str.lower c = None /\
    e = KeyError (Str.lower c).
Proof.
  intros Hrun.
  destruct (SURVEY_QUESTIONS !! Str.lower c) as [levels|] eqn:H.
  2:{ rewrite (survey_unknown _ _ _ _ H) in Hrun. discriminate. }
  destruct ((get_user_progress s).1 !! Str.lower c) as [d|] eqn:Hd.
  - destruct (Z_lt_le_dec (level d) 0) as [Hneg|Hpos].
    { rewrite (survey_blocked m form c s levels d H Hd) in Hrun
        by (left; exact Hneg). discriminate. }
    destruct (Z_lt_le_dec (level d) (len levels)) as [Hlt|Hge].
    + destruct (survey_open c s levels d H Hd) as (lvl & _ & _ & Hget & Hpost);
        [lia|].
      destruct m; [rewrite Hget in Hrun|rewrite Hpost in Hrun]; discriminate.
    + rewrite (survey_blocked m form c s levels d H Hd) in Hrun
        by (right; exact Hge). discriminate.
  - rewrite (survey_missing_entry _ _ _ _ _ H Hd) in Hrun.
    injection Hrun as <-.
    destruct s as [p|].
    + exists p, levels. simpl in Hd. auto.
    + simpl in Hd. rewrite new_progress_lookup, H in Hd. discriminate.
Qed.

Lemma survey_raises_only_key_error_witness :
  exists p levels,
    Some progress_without_mental = Some p /\
    SURVEY_QUESTIONS !! Str.lower "MENTAL" = Some levels /\
    p !! Str.lower "MENTAL" = None /\
    KeyError "mental" = KeyError (Str.lower "MENTAL").
Proof.
  apply (survey_raises_only_key_error POST sample_form "MENTAL"
           (Some progress_without_mental) (KeyError "mental")).
  vm_compute. reflexivity.
Defined.

(** X16. The summary page never fails by a division by zero, and a
    [KeyError] it raises names a key of the progress record that is not a
    category of the table. *)
Theorem index_raise_cases s e :
  index s = Raise e ->
  e <> ZeroDivisionError /\
  forall k,
    e = KeyError k ->
    SURVEY_QUESTIONS !! k = None /\ is_Some ((get_user_progress s).1 !! k).
Proof.
  unfold index. destruct (get_user_progress s) as [p s1]. simpl.
  destruct (index_loop (map_to_list p) []) as [infos|e0] eqn:Hloop; simpl;
    [discriminate|].
  intros E. injection E as ->.
  destruct (index_loop_raise _ _ _ Hloop)
    as [(k & d & Hin & Hk & ->) | [-> | ->]].
  - split; [discriminate|]. intros k' E. injection E as <-.
    split; [exact Hk|]. apply elem_of_map_to_list in Hin. eauto.
  - split; [discriminate|]. intros k E. discriminate.
  - split; [discriminate|]. intros k E. discriminate.
Qed.

Lemma index_raise_cases_witness :
  KeyError "social" <> ZeroDivisionError /\
  forall k,
    KeyError "social" = KeyError k ->
    SURVEY_QUESTIONS !! k = None /\
    is_Some ((get_user_progress (Some progress_with_social)).1 !! k).
Proof.
  apply (index_raise_cases (Some progress_with_social) (KeyError "social")).
  vm_compute. reflexivity.
Defined.
